(** * teneto.derive: time-varying connectivity derivation

    A shallow embedding of [teneto/derive/derive.py]: the weight-matrix
    builders ([weightfun_jackknife], [weightfun_sliding_window],
    [weightfun_tapered_sliding_window], [weightfun_spatial_distance]),
    [temporal_derivative] and the dispatcher [derive], followed by the
    properties of the derivation engine.

    Conventions.
    - A numpy array is its shape together with its indexing function
      ([ndarray1], [ndarray2], [ndarray3]); only indices inside the shape
      are meaningful.  [to_list1], [to_list2], [to_list3] list the entries.
    - float64 arithmetic is an interface ([Float64]); [binary64] instantiates
      it with the IEEE-754 operations of the standard library's [SpecFloat].
      Reductions ([np_sum]) add from left to right.
    - A Python exception is the name of its class and its message; a call
      either returns ([Ok]) or raises ([Raise]).
    - The configuration dict is one mutable object shared with the caller:
      functions that write into it take its content and return the new
      content.
    - What [derive] calls outside [derive.py] (statsmodels' weighted
      correlation, [teneto.utils.getDistanceFunction], the evaluated scipy
      density, [teneto.derive.postpro_pipeline]) is the interface
      [Externals]; [teneto.derive.gen_report] is recorded as a call.

    Beside [derive.py], the file embeds [pascal_row] and
    [edgeListFromMatrix] of [slice_graph.py] and the history methods of
    [teneto/classes/bids.py]. *)

From Stdlib Require Import ZArith List Bool Lia SpecFloat QArith Lqa.
From stdpp Require Import base option gmap strings list.

Local Open Scope string_scope.
Local Open Scope Z_scope.

(** ** Python exceptions and results *)

Record exn := Exn { exn_class : string; exn_msg : string }.

Inductive result (A : Type) : Type :=
| Ok (a : A)
| Raise (e : exn).
Arguments Ok {A} a.
Arguments Raise {A} e.

#[export] Instance result_ret : MRet result := fun A a => Ok a.
#[export] Instance result_bind : MBind result := fun A B k r =>
  match r with
  | Ok a => k a
  | Raise e => Raise e
  end.

Definition ValueError (msg : string) : exn := Exn "ValueError" msg.
Definition KeyError (key : string) : exn := Exn "KeyError" key.
Definition TypeError (msg : string) : exn := Exn "TypeError" msg.
Definition IndexError (msg : string) : exn := Exn "IndexError" msg.

Definition raises {A} (r : result A) (cls : string) : Prop :=
  exists msg, r = Raise (Exn cls msg).

(** ** float64 *)

Class Float64 (F : Type) := {
  of_Z : Z -> F;                 (* a Python int stored into a float array *)
  nan : F;                       (* np.nan *)
  fadd : F -> F -> F;
  fsub : F -> F -> F;
  fmul : F -> F -> F;
  fdiv : F -> F -> F;
  fsqrt : F -> F;
  fle : F -> F -> bool;          (* x <= y, False when either is NaN *)
  isnan : F -> bool;
  isinf : F -> bool;
  isinf_zero : isinf (of_Z 0) = false
}.

(** IEEE-754 binary64, round to nearest even. *)
Module Binary64.
Definition prec : Z := 53.
Definition emax : Z := 1024.

Definition b64_of_Z (z : Z) : spec_float :=
  match z with
  | Z0 => S754_zero false
  | Zpos _ => binary_normalize prec emax z 0 false
  | Zneg _ => binary_normalize prec emax z 0 true
  end.

Definition b64_isnan (x : spec_float) : bool :=
  match x with S754_nan => true | _ => false end.

Definition b64_isinf (x : spec_float) : bool :=
  match x with S754_infinity _ => true | _ => false end.
End Binary64.

#[export] Instance binary64 : Float64 spec_float := {|
  of_Z := Binary64.b64_of_Z;
  nan := S754_nan;
  fadd := SFadd Binary64.prec Binary64.emax;
  fsub := SFsub Binary64.prec Binary64.emax;
  fmul := SFmul Binary64.prec Binary64.emax;
  fdiv := SFdiv Binary64.prec Binary64.emax;
  fsqrt := SFsqrt Binary64.prec Binary64.emax;
  fle := SFleb;
  isnan := Binary64.b64_isnan;
  isinf := Binary64.b64_isinf;
  isinf_zero := eq_refl
|}.

(** ** numpy arrays *)

Section Arrays.
Context {F : Type}.

Record ndarray1 := Arr1 { len1 : nat; get1 : nat -> F }.
Record ndarray2 := Arr2 { shape0 : nat; shape1 : nat; get2 : nat -> nat -> F }.
Record ndarray3 := Arr3 { dim0 : nat; dim1 : nat; dim2 : nat;
                          get3 : nat -> nat -> nat -> F }.

Definition to_list1 (a : ndarray1) : list F :=
  map (get1 a) (seq 0 (len1 a)).
Definition to_list2 (a : ndarray2) : list (list F) :=
  map (fun i => map (get2 a i) (seq 0 (shape1 a))) (seq 0 (shape0 a)).
Definition to_list3 (a : ndarray3) : list (list (list F)) :=
  map (fun i => map (fun j => map (get3 a i j) (seq 0 (dim2 a)))
                    (seq 0 (dim1 a))) (seq 0 (dim0 a)).

(* a[i, :] and a[:, j] *)
Definition row (a : ndarray2) (i : nat) : ndarray1 :=
  Arr1 (shape1 a) (fun j => get2 a i j).
Definition col (a : ndarray2) (j : nat) : ndarray1 :=
  Arr1 (shape0 a) (fun i => get2 a i j).

(* a.transpose() on a 2-D array *)
Definition transpose (a : ndarray2) : ndarray2 :=
  Arr2 (shape1 a) (shape0 a) (fun i j => get2 a j i).

(* np.array([v_0, ..., v_{n-1}]) for n rows of width m *)
Definition stack_rows (n m : nat) (v : nat -> ndarray1) : ndarray2 :=
  Arr2 n m (fun i j => get1 (v i) j).

(* np.fill_diagonal(a, x) *)
Definition fill_diagonal (a : ndarray2) (x : F) : ndarray2 :=
  Arr2 (shape0 a) (shape1 a)
       (fun i j => if Nat.eqb i j then x else get2 a i j).

(* np.roll(a, i) for 0 <= i: entry j of the result is a[(j - i) mod n] *)
Definition np_roll (a : ndarray1) (i : nat) : ndarray1 :=
  Arr1 (len1 a)
       (fun j => get1 a (Z.to_nat ((Z.of_nat j - Z.of_nat i) mod Z.of_nat (len1 a)))).

Definition map1 (f : F -> F) (a : ndarray1) : ndarray1 :=
  Arr1 (len1 a) (fun i => f (get1 a i)).
Definition map2 (f : F -> F) (a : ndarray2) : ndarray2 :=
  Arr2 (shape0 a) (shape1 a) (fun i j => f (get2 a i j)).
Definition map3 (f : F -> F) (a : ndarray3) : ndarray3 :=
  Arr3 (dim0 a) (dim1 a) (dim2 a) (fun i j t => f (get3 a i j t)).

(* the entries of a 2-D array in C order, as ufunc.reduce(axis=None) sees them *)
Definition ravel (a : ndarray2) : list F := concat (to_list2 a).
End Arrays.
Arguments ndarray1 F : clear implicits.
Arguments ndarray2 F : clear implicits.
Arguments ndarray3 F : clear implicits.

(** ** numpy reductions *)

Section Reductions.
Context {F : Type} `{Float64 F}.

Definition np_zeros (n : nat) : ndarray1 F := Arr1 n (fun _ => of_Z 0).
Definition np_ones (n : nat) : ndarray1 F := Arr1 n (fun _ => of_Z 1).

(* np.add.reduce: 0.0 on an empty array, otherwise the running sum
   started from the first entry *)
Definition np_sum (l : list F) : F :=
  match l with
  | [] => of_Z 0
  | x :: r => fold_left fadd r x
  end.

(* np.mean: the sum divided by the number of entries *)
Definition np_mean (a : ndarray1 F) : F :=
  fdiv (np_sum (to_list1 a)) (of_Z (Z.of_nat (len1 a))).

(* np.std(a, ddof=ddof): sqrt(sum((a - mean)**2) / max(n - ddof, 0)) *)
Definition np_std (ddof : nat) (a : ndarray1 F) : F :=
  let m := np_mean a in
  let x := map (fun v => fsub v m) (to_list1 a) in
  fsqrt (fdiv (np_sum (map (fun d => fmul d d) x))
              (of_Z (Z.max (Z.of_nat (len1 a) - Z.of_nat ddof) 0))).

(* np.fmin / np.fmax: the other operand when one is NaN *)
Definition np_fmin (x y : F) : F := if fle x y || isnan y then x else y.
Definition np_fmax (x y : F) : F := if fle y x || isnan y then x else y.

Definition reduce (op : F -> F -> F) (name : string) (l : list F) : result F :=
  match l with
  | [] => Raise (ValueError ("zero-size array to reduction operation " +:+ name
                             +:+ " which has no identity"))
  | x :: r => Ok (fold_left op r x)
  end.

(* np.nanmin / np.nanmax on a float array are fmin.reduce / fmax.reduce
   over all entries (an all-NaN array gives NaN and a warning) *)
Definition np_nanmin (a : ndarray2 F) : result F := reduce np_fmin "fmin" (ravel a).
Definition np_nanmax (a : ndarray2 F) : result F := reduce np_fmax "fmax" (ravel a).
End Reductions.

(** ** Configuration values and the derivation report *)

Section Values.
Context {F : Type}.

(** The values a configuration entry holds: a string, an int, a 1-D or
    a 2-D array of floats (an ndarray or the nested list of its numbers). *)
Inductive pyval :=
| PStr (s : string)
| PInt (z : Z)
| PVec (a : ndarray1 F)
| PMat (a : ndarray2 F).

(** An entry of the report dict.  [RParams] is a reference to the caller's
    configuration dict itself ([report['slidingwindow'] = params]), not a
    copy of it. *)
Inductive rval :=
| RStr (s : string)
| RParams
| RDict (d : gmap string pyval).

(** What [derive] hands back to its caller. *)
Inductive pyobj :=
| PyArray (R : ndarray3 F)
| PyDict (d : gmap string rval)
| PyTuple2 (a b : pyobj).

(* v == s for a str literal s; a value that is not a str is not equal to it
   (numpy compares an array with a str to a single False) *)
Definition eq_str (v : pyval) (s : string) : bool :=
  match v with
  | PStr s' => bool_decide (s' = s)
  | _ => false
  end.

(* params[key] *)
Definition getitem (params : gmap string pyval) (key : string) : result pyval :=
  match params !! key with
  | Some v => Ok v
  | None => Raise (KeyError key)
  end.

(* if key not in params.keys(): params[key] = v *)
Definition setdefault (key : string) (v : pyval) (params : gmap string pyval)
  : gmap string pyval :=
  match params !! key with
  | Some _ => params
  | None => <[key := v]> params
  end.

(* an entry used where numpy needs a Python int *)
Definition as_int (v : pyval) : result Z :=
  match v with
  | PInt z => Ok z
  | _ => Raise (TypeError "object cannot be interpreted as an integer")
  end.

(* map(str, v), which ','.join consumes: v has to be iterable, as a str, an
   array and a list are and an int is not *)
Definition iterable (v : pyval) : result unit :=
  match v with
  | PInt _ => Raise (TypeError "'int' object is not iterable")
  | _ => Ok tt
  end.
End Values.
Arguments pyval F : clear implicits.
Arguments rval F : clear implicits.
Arguments pyobj F : clear implicits.

(** What [derive] reaches outside [derive.py]. *)
Class Externals (F : Type) := {
  (* statsmodels: DescrStatsW(data, weights).corrcoef, an N x N matrix *)
  DescrStatsW_corrcoef : ndarray2 F -> ndarray1 F -> ndarray2 F;
  (* teneto.utils.getDistanceFunction *)
  getDistanceFunction : pyval F -> result (ndarray1 F -> ndarray1 F -> F);
  (* lines 209-210: eval of 'sps.<distribution>.pdf(x,<parameters>)', given
     params['distribution_params'] (joined at line 208, once it is known to
     be iterable), params['distribution'] and x *)
  scipy_pdf : pyval F -> pyval F -> ndarray1 F -> result (ndarray1 F);
  (* teneto.derive.postpro_pipeline(R, postpro, report) *)
  postpro_pipeline : ndarray3 F -> pyval F -> gmap string (rval F)
                     -> result (ndarray3 F * gmap string (rval F))
}.

(** ** derive.py *)

Section Derive.
Context {F : Type} `{Float64 F} `{Externals F}.

Abbreviation dict := (gmap string (pyval F)).
Abbreviation report_t := (gmap string (rval F)).

(** [weightfun_jackknife(T, report)] *)
Definition weightfun_jackknife (T : nat) (report : report_t)
  : ndarray2 F * report_t :=
  let weights := Arr2 T T (fun _ _ => of_Z 1) in      (* np.ones([T, T]) *)
  let weights := fill_diagonal weights (of_Z 0) in
  (weights, report).

(* the length of a[0:k] for an array of length T *)
Definition slice_len (T : nat) (k : Z) : nat :=
  if k <? 0 then Z.to_nat (Z.max 0 (Z.of_nat T + k))
  else Z.to_nat (Z.min k (Z.of_nat T)).

(* weightat0 = np.zeros(T); weightat0[0:k] = v *)
Definition assign_prefix (T : nat) (k : Z) (v : ndarray1 F) : result (ndarray1 F) :=
  let n := slice_len T k in
  if Nat.eqb (len1 v) n then
    Ok (Arr1 T (fun j => if Nat.ltb j n then get1 v j else of_Z 0))
  else if Nat.eqb (len1 v) 1 then
    Ok (Arr1 T (fun j => if Nat.ltb j n then get1 v 0%nat else of_Z 0))
  else Raise (ValueError "could not broadcast input array").

(* np.array([np.roll(weightat0, i) for i in range(0, T + 1 - k)]) *)
Definition rolled_rows (T : nat) (k : Z) (weightat0 : ndarray1 F) : ndarray2 F :=
  stack_rows (Z.to_nat (Z.of_nat T + 1 - k)) T (fun i => np_roll weightat0 i).

(** [weightfun_sliding_window(T, params, report)]; the last component is
    the content of [params] when the call returns. *)
Definition weightfun_sliding_window (T : nat) (params : dict) (report : report_t)
  : result (ndarray2 F * report_t * dict) :=
  w ← getitem params "windowsize";
  k ← as_int w;
  ones ← (if k <? 0 then Raise (ValueError "negative dimensions are not allowed")
          else Ok (np_ones (Z.to_nat k)));
  weightat0 ← assign_prefix T k ones;
  let weights := rolled_rows T k weightat0 in
  let report := <["method" := RStr "slidingwindow"]> report in
  let report := <["slidingwindow" := RParams]> report in
  let params := <["taper" := PStr "untapered/uniform"]> params in
  Ok (weights, report, params).

(* np.arange(-(k - 1) / 2, k / 2) *)
Definition taper_window (k : Z) : ndarray1 F :=
  Arr1 (Z.to_nat k)
       (fun i => fadd (fdiv (of_Z (- (k - 1))) (of_Z 2)) (of_Z (Z.of_nat i))).

(** [weightfun_tapered_sliding_window(T, params, report)] *)
Definition weightfun_tapered_sliding_window (T : nat) (params : dict) (report : report_t)
  : result (ndarray2 F * report_t * dict) :=
  w ← getitem params "windowsize";
  k ← as_int w;
  let x := taper_window k in
  dparams ← getitem params "distribution_params";
  _ ← iterable dparams;                               (* line 208 *)
  dname ← getitem params "distribution";              (* line 209 *)
  taper ← scipy_pdf dparams dname x;
  weightat0 ← assign_prefix T k taper;
  let weights := rolled_rows T k weightat0 in
  let report := <["method" := RStr "slidingwindow"]> report in
  let report := <["slidingwindow" := RParams]> report in
  let params := <["taper" := PVec taper]> params in
  let params := <["taper_window" := PVec x]> params in
  Ok (weights, report, params).

(** [weightfun_spatial_distance(data, params, report)] *)
Definition weightfun_spatial_distance (data : ndarray2 F) (params : dict)
           (report : report_t) : result (ndarray2 F * report_t) :=
  d ← getitem params "distance";
  distance ← getDistanceFunction d;
  let T := shape0 data in
  let weights := Arr2 T T (fun n t => distance (row data n) (row data t)) in
  let weights := fill_diagonal weights nan in
  let weights := map2 (fun x => fdiv (of_Z 1) x) weights in
  lo ← np_nanmin weights;
  hi ← np_nanmax weights;
  let weights := map2 (fun x => fdiv (fsub x lo) (fsub hi lo)) weights in
  let weights := fill_diagonal weights (of_Z 1) in
  Ok (weights, report).

(** [temporal_derivative(data, params, report)] *)
Definition temporal_derivative (data : ndarray2 F) (params : dict) (report : report_t)
  : result (ndarray3 F * report_t) :=
  (* data[1:, :] - data[:-1, :] *)
  let tdat := Arr2 (shape0 data - 1) (shape1 data)
                   (fun t j => fsub (get2 data (S t) j) (get2 data t j)) in
  (* tdat / np.std(tdat, axis=0) *)
  let sd := Arr1 (shape1 tdat) (fun j => np_std 0 (col tdat j)) in
  let tdat := Arr2 (shape0 tdat) (shape1 tdat)
                   (fun t j => fdiv (get2 tdat t j) (get1 sd j)) in
  let coupling := Arr3 (shape1 tdat) (shape1 tdat) (shape0 tdat)
                       (fun i j t => fmul (get2 tdat t i) (get2 tdat t j)) in
  w ← getitem params "windowsize";
  k ← as_int w;
  let depth := Z.of_nat (dim2 coupling) - k + 1 in
  if (depth <? 0) || (k <? 0) then
    Raise (ValueError "negative dimensions are not allowed")
  else
    let coupling_windowed :=
      Arr3 (dim0 coupling) (dim1 coupling) (Z.to_nat depth)
           (fun i j t => np_mean (Arr1 (Z.to_nat k)
                                       (fun s => get3 coupling i j (t + s)%nat))) in
    let report : report_t :=
      <["temporalderivative" := RDict {["windowsize" := w]}]>
        (<["method" := RStr "temporalderivative"]> ∅) in
    Ok (coupling_windowed, report).

(** *** derive *)

Inductive relation :=
| Weight (weights : ndarray2 F)
| Coupling (R : ndarray3 F).

(** What a call of [derive] does: the value it returns or the exception
    it raises, the content of the caller's [params] afterwards, and the
    call of [teneto.derive.gen_report] it made, if any (the report and the
    path it is given; gen_report is taken to return). *)
Record outcome := Outcome {
  returned : result (pyobj F);
  params_after : dict;
  gen_report_call : option (report_t * string)
}.

(* lines 116-126 *)
Definition defaults (params : dict) : dict :=
  setdefault "postpro" (PStr "no")
    (setdefault "analysis_id" (PStr "")
       (setdefault "report" (PStr "yes")
          (setdefault "dimord" (PStr "time,node") params))).

(* lines 128-129 *)
Definition orient (data : ndarray2 F) (params : dict) : result (ndarray2 F) :=
  dimord ← getitem params "dimord";
  Ok (if eq_str dimord "node,time" then transpose data else data).

Definition unrecognised : exn :=
  ValueError "Unrecognoized method. See derive_with_weighted_pearson documentation for predefined methods or enter own weight matrix".

(* lines 131-162; the weight functions write into [params] only after
   their last point of failure, so a raise leaves it as it was *)
Definition dispatch (data : ndarray2 F) (params : dict) (report : report_t)
  : result (relation * report_t * dict) :=
  method ← getitem params "method";
  match method with
  | PStr m =>
      if bool_decide (m = "jackknife") then
        let '(weights, report) := weightfun_jackknife (shape0 data) report in
        Ok (Weight weights, report, params)
      else if bool_decide (m = "sliding window") || bool_decide (m = "slidingwindow") then
        '(weights, report, params) ← weightfun_sliding_window (shape0 data) params report;
        Ok (Weight weights, report, params)
      else if bool_decide (m = "tapered sliding window")
              || bool_decide (m = "taperedslidingwindow") then
        '(weights, report, params) ←
          weightfun_tapered_sliding_window (shape0 data) params report;
        Ok (Weight weights, report, params)
      else if bool_decide (m = "distance") || bool_decide (m = "spatial distance")
              || bool_decide (m = "node distance") || bool_decide (m = "nodedistance")
              || bool_decide (m = "spatialdistance") then
        '(weights, report) ← weightfun_spatial_distance data params report;
        Ok (Weight weights, report, params)
      else if bool_decide (m = "temporal derivative")
              || bool_decide (m = "temporalderivative") then
        '(R, report) ← temporal_derivative data params report;
        Ok (Coupling R, report, params)
      else Raise unrecognised
  | PMat weights =>
      if negb (Nat.eqb (shape0 weights) (shape1 weights)) then
        Raise (ValueError "weight matrix should be square")
      else if negb (Nat.eqb (shape0 weights) (shape0 data)) then
        Raise (ValueError "weight matrix must equal number of time points")
      else Ok (Weight weights, report, params)
  | PInt _ | PVec _ => Raise (IndexError "tuple index out of range")
  end.

(* lines 164-170: one weighted correlation matrix per weight row, stacked
   and transposed to node,node,time; with no weight row the stack is the
   1-D empty array, which has no three axes to transpose *)
Definition correlate (data weights : ndarray2 F) : result (ndarray3 F) :=
  if Nat.eqb (shape0 weights) 0 then Raise (ValueError "axes don't match array")
  else Ok (Arr3 (shape1 data) (shape1 data) (shape0 weights)
                (fun a b i => get2 (DescrStatsW_corrcoef data (row weights i)) a b)).

(* R * -1 *)
Definition negate (R : ndarray3 F) : ndarray3 F :=
  map3 (fun x => fmul x (of_Z (-1))) R.

(* R[np.isinf(R)] = 0 *)
Definition zero_infinities (R : ndarray3 F) : ndarray3 F :=
  map3 (fun x => if isinf x then of_Z 0 else x) R.

(* lines 172-174 *)
Definition correct_jackknife (params : dict) (R : ndarray3 F) : result (ndarray3 F) :=
  method ← getitem params "method";
  Ok (if eq_str method "jackknife" then negate R else R).

(* lines 176-179 *)
Definition postprocess (params : dict) (R : ndarray3 F) (report : report_t)
  : result (ndarray3 F * report_t) :=
  postpro ← getitem params "postpro";
  if negb (eq_str postpro "no") then
    '(R, report) ← postpro_pipeline R postpro report;
    Ok (zero_infinities R, report)
  else Ok (R, report).

(* lines 181-183: the call of gen_report, if any, and the value returned *)
Definition report_step (params : dict) (R : ndarray3 F) (report : report_t)
  : result (ndarray3 F * option (report_t * string)) :=
  rep ← getitem params "report";
  if eq_str rep "yes" then
    analysis_id ← getitem params "analysis_id";
    match analysis_id with
    | PStr a => Ok (R, Some (report, "./report/" +:+ a))
    | _ => Raise (TypeError "can only concatenate str to str")
    end
  else Ok (R, None).

(* lines 164-183; nothing here writes into [params] *)
Definition reduce_and_report (data : ndarray2 F) (params : dict)
           (rel : relation) (report : report_t)
  : result (ndarray3 F * option (report_t * string)) :=
  R ← match rel with
      | Weight weights => correlate data weights
      | Coupling R => Ok R
      end;
  R ← correct_jackknife params R;
  '(R, report) ← postprocess params R report;
  report_step params R report.

(* lines 131-183: what [derive] does once the defaults are filled in and
   the data is time x node *)
Definition derive_oriented (data : ndarray2 F) (params : dict) : outcome :=
  let report : report_t := ∅ in
  match dispatch data params report with
  | Raise e => Outcome (Raise e) params None
  | Ok (rel, report, params) =>
      match reduce_and_report data params rel report with
      | Raise e => Outcome (Raise e) params None
      | Ok (R, call) => Outcome (Ok (PyArray R)) params call
      end
  end.

(** [derive(data, params)] *)
Definition derive (data : ndarray2 F) (params : dict) : outcome :=
  let params := defaults params in
  match orient data params with
  | Raise e => Outcome (Raise e) params None
  | Ok data => derive_oriented data params
  end.
End Derive.

(** ** Reference externals

    Executable stand-ins for the libraries [derive] calls, used to run the
    model on concrete inputs. *)

Section Reference.
Context {F : Type} `{Float64 F}.

(* np.dot of two vectors of the same length *)
Definition dot (n : nat) (u v : nat -> F) : F :=
  np_sum (map (fun t => fmul (u t) (v t)) (seq 0 n)).

(** statsmodels' [DescrStatsW(data, weights).corrcoef] with [ddof = 0]:
    the weighted covariance divided by the weighted standard deviations. *)
Definition weighted_pearson (data : ndarray2 F) (weights : ndarray1 F) : ndarray2 F :=
  let T := shape0 data in
  let sum_weights := np_sum (to_list1 weights) in
  let mean j := fdiv (dot T (fun t => get2 data t j) (get1 weights)) sum_weights in
  let demeaned t j := fsub (get2 data t j) (mean j) in
  let denom := fsub sum_weights (of_Z 0) in
  let var j := fdiv (dot T (fun t => fmul (demeaned t j) (demeaned t j)) (get1 weights))
                    denom in
  let std j := fsqrt (var j) in
  let cov a b := fdiv (dot T (fun t => fmul (get1 weights t) (demeaned t a))
                            (fun t => demeaned t b)) denom in
  Arr2 (shape1 data) (shape1 data) (fun a b => fdiv (fdiv (cov a b) (std b)) (std a)).

(** Modelled from the spec: [teneto.utils.getDistanceFunction] is not among
    the sources; section 4.1 names the Euclidean metric as one it resolves,
    and an unknown name is a configuration fault. *)
Definition euclidean (u v : ndarray1 F) : F :=
  fsqrt (np_sum (map (fun i => let d := fsub (get1 u i) (get1 v i) in fmul d d)
                     (seq 0 (len1 u)))).

Definition reference_distance (name : pyval F) : result (ndarray1 F -> ndarray1 F -> F) :=
  if eq_str name "euclidean" then Ok euclidean
  else Raise (ValueError "Distance function cannot be found.").

(** The eval of lines 208-210 for [scipy.stats.uniform] with parameters
    [loc, scale]: density [1/scale] on [[loc, loc + scale]], 0 elsewhere.
    Any other attribute of [scipy.stats] is taken to be missing. *)
Definition reference_pdf (dparams dname : pyval F) (x : ndarray1 F)
  : result (ndarray1 F) :=
  match dname, dparams with
  | PStr name, PVec p =>
      if bool_decide (name = "uniform") then
        if Nat.eqb (len1 p) 2 then
          let loc := get1 p 0%nat in
          let scale := get1 p 1%nat in
          Ok (map1 (fun v => if fle loc v && fle v (fadd loc scale)
                             then fdiv (of_Z 1) scale else of_Z 0) x)
        else Raise (TypeError "pdf() takes a different number of arguments")
      else Raise (Exn "AttributeError"
                      ("module 'scipy.stats' has no attribute '" +:+ name +:+ "'"))
  | _, _ => Raise (TypeError "can only concatenate str to str")
  end.

(** Modelled from the spec: [teneto.derive.postpro_pipeline] is not among
    the sources.  Section 4.4: [standardize] subtracts the mean of each
    edge series and divides by its standard deviation across time; the
    step is recorded in the report; an unknown transform name fails.  A
    pipeline of one step is modelled. *)
Definition postpro_standardize (R : ndarray3 F) : ndarray3 F :=
  Arr3 (dim0 R) (dim1 R) (dim2 R)
       (fun i j t =>
          let series := Arr1 (dim2 R) (get3 R i j) in
          fdiv (fsub (get3 R i j t) (np_mean series)) (np_std 0 series)).

(** Modelled from the spec: section 4.4 has [fisher] be the elementwise
    inverse hyperbolic tangent, which is +infinity at r = 1 and -infinity
    at r = -1; it is NaN outside [-1, 1].  Strictly inside (-1, 1) the
    value is the C library's; the first terms r + r^3/3 + r^5/5 of the
    series stand for it here, and no statement depends on them. *)
Definition arctanh_series (r : F) : F :=
  let r2 := fmul r r in
  let r3 := fmul r2 r in
  let r5 := fmul r3 r2 in
  fadd (fadd r (fdiv r3 (of_Z 3))) (fdiv r5 (of_Z 5)).

Definition np_arctanh (r : F) : F :=
  if isnan r then nan
  else if fle (of_Z 1) r && fle r (of_Z 1) then fdiv (of_Z 1) (of_Z 0)
  else if fle (of_Z (-1)) r && fle r (of_Z (-1)) then fdiv (of_Z (-1)) (of_Z 0)
  else if fle (of_Z (-1)) r && fle r (of_Z 1) then arctanh_series r
  else nan.

Definition postpro_fisher (R : ndarray3 F) : ndarray3 F := map3 np_arctanh R.

Definition reference_postpro (R : ndarray3 F) (pipeline : pyval F)
           (report : gmap string (rval F))
  : result (ndarray3 F * gmap string (rval F)) :=
  if eq_str pipeline "standardize" then
    Ok (postpro_standardize R, <["postprocess" := RStr "standardize"]> report)
  else if eq_str pipeline "fisher" then
    Ok (postpro_fisher R, <["postprocess" := RStr "fisher"]> report)
  else Raise (KeyError "postpro_functions").

#[export] Instance reference_externals : Externals F := {|
  DescrStatsW_corrcoef := weighted_pearson;
  getDistanceFunction := reference_distance;
  scipy_pdf := reference_pdf;
  postpro_pipeline := reference_postpro
|}.
End Reference.

(** Concrete float64 inputs. *)
Definition f64 (z : Z) : spec_float := Binary64.b64_of_Z z.

Definition matrix_of (rows : list (list Z)) : ndarray2 spec_float :=
  Arr2 (length rows) (length (hd [] rows))
       (fun i j => f64 (nth j (nth i rows []) 0)).

(** ** Order laws of rounded arithmetic

    The facts about comparison, subtraction and division that the bound on
    the distance weights rests on.  Round-to-nearest arithmetic has them:
    rounding is monotone, and 0 and 1 are representable. *)

Class RoundedOrder (F : Type) `{Float64 F} : Prop := {
  isnan_nan : isnan nan = true;
  fle_refl : forall x, isnan x = false -> fle x x = true;
  fle_trans : forall x y z, fle x y = true -> fle y z = true -> fle x z = true;
  fle_total : forall x y,
    isnan x = false -> isnan y = false -> fle x y = true \/ fle y x = true;
  fle_not_nan : forall x y, fle x y = true -> isnan x = false /\ isnan y = false;
  fsub_not_nan : forall x y,
    isnan (fsub x y) = false -> isnan x = false /\ isnan y = false;
  fdiv_not_nan : forall x y,
    isnan (fdiv x y) = false -> isnan x = false /\ isnan y = false;
  fsub_nonneg : forall x y,
    fle y x = true -> isnan (fsub x y) = false -> fle (of_Z 0) (fsub x y) = true;
  fsub_mono : forall x x' y,
    fle x x' = true -> isnan (fsub x y) = false -> isnan (fsub x' y) = false ->
    fle (fsub x y) (fsub x' y) = true;
  fdiv_unit : forall a b,
    fle (of_Z 0) a = true -> fle a b = true -> isnan (fdiv a b) = false ->
    fle (of_Z 0) (fdiv a b) = true /\ fle (fdiv a b) (of_Z 1) = true
}.

(** Exact arithmetic on the rationals extended with the two infinities and
    NaN: an arithmetic without rounding in which the order laws hold.
    Square roots are rounded down to a multiple of the denominator's
    inverse. *)
Module Exact.
Inductive xq :=
| XNaN
| XInf (negative : bool)
| XFin (q : Q).

Definition xopp (x : xq) : xq :=
  match x with
  | XNaN => XNaN
  | XInf s => XInf (negb s)
  | XFin q => XFin (Qopp q)
  end.

Definition xadd (x y : xq) : xq :=
  match x, y with
  | XNaN, _ | _, XNaN => XNaN
  | XInf s, XInf s' => if Bool.eqb s s' then XInf s else XNaN
  | XInf s, XFin _ | XFin _, XInf s => XInf s
  | XFin p, XFin q => XFin (Qred (Qplus p q))
  end.

Definition xsub (x y : xq) : xq := xadd x (xopp y).

Definition negative_q (q : Q) : bool := negb (Qle_bool 0 q).

Definition xmul (x y : xq) : xq :=
  match x, y with
  | XNaN, _ | _, XNaN => XNaN
  | XInf s, XInf s' => XInf (xorb s s')
  | XInf s, XFin q | XFin q, XInf s =>
      if Qeq_bool q 0 then XNaN else XInf (xorb s (negative_q q))
  | XFin p, XFin q => XFin (Qred (Qmult p q))
  end.

Definition xdiv (x y : xq) : xq :=
  match x, y with
  | XNaN, _ | _, XNaN => XNaN
  | XInf _, XInf _ => XNaN
  | XInf s, XFin q => XInf (xorb s (negative_q q))
  | XFin _, XInf _ => XFin 0
  | XFin p, XFin q =>
      if Qeq_bool q 0 then
        (if Qeq_bool p 0 then XNaN else XInf (negative_q p))
      else XFin (Qred (Qdiv p q))
  end.

Definition xsqrt (x : xq) : xq :=
  match x with
  | XNaN => XNaN
  | XInf s => if s then XNaN else XInf false
  | XFin q =>
      if negative_q q then XNaN
      else XFin (Qred (Qmake (Z.sqrt (Qnum q * Zpos (Qden q))) (Qden q)))
  end.

Definition xle (x y : xq) : bool :=
  match x, y with
  | XNaN, _ | _, XNaN => false
  | XInf true, _ => true
  | _, XInf false => true
  | XInf false, _ => false
  | _, XInf true => false
  | XFin p, XFin q => Qle_bool p q
  end.

Definition xisnan (x : xq) : bool :=
  match x with XNaN => true | _ => false end.

Definition xisinf (x : xq) : bool :=
  match x with XInf _ => true | _ => false end.
End Exact.

#[export] Instance exact : Float64 Exact.xq := {|
  of_Z z := Exact.XFin (inject_Z z);
  nan := Exact.XNaN;
  fadd := Exact.xadd;
  fsub := Exact.xsub;
  fmul := Exact.xmul;
  fdiv := Exact.xdiv;
  fsqrt := Exact.xsqrt;
  fle := Exact.xle;
  isnan := Exact.xisnan;
  isinf := Exact.xisinf;
  isinf_zero := eq_refl
|}.

(** ** Vocabulary of the properties *)

Section Vocabulary.
Context {F : Type} `{Float64 F} `{Externals F}.

(** The base vector of section 4.1: the first [k] entries 1, the rest 0. *)
Definition base_vector (T : nat) (k : Z) : ndarray1 F :=
  Arr1 T (fun j => if Z.of_nat j <? k then of_Z 1 else of_Z 0).

(** The value lines 116-126 store under a key the caller left out. *)
Definition default_entry (key : string) : option (pyval F) :=
  if decide ("postpro" = key) then Some (PStr "no")
  else if decide ("analysis_id" = key) then Some (PStr "")
  else if decide ("report" = key) then Some (PStr "yes")
  else if decide ("dimord" = key) then Some (PStr "time,node")
  else None.

(** The data as [derive] uses it: transposed exactly when the caller's
    [dimord] is the string 'node,time'. *)
Definition time_by_node (data : ndarray2 F) (params : gmap string (pyval F))
  : ndarray2 F :=
  match params !! "dimord" with
  | Some v => if eq_str v "node,time" then transpose data else data
  | None => data
  end.

(** [analysis_id], when the caller gives one, is a string. *)
Definition analysis_id_is_str (params : gmap string (pyval F)) : Prop :=
  forall v, params !! "analysis_id" = Some v -> exists a, v = PStr a.

(** Post-processing is not requested: [postpro] is absent or 'no'. *)
Definition no_postpro (params : gmap string (pyval F)) : Prop :=
  params !! "postpro" = None \/ params !! "postpro" = Some (PStr "no").

(** The tensor of weighted Pearson correlations of the weight rows:
    slice [i] is the correlation matrix under row [i] of [weights]. *)
Definition pearson_tensor (data weights : ndarray2 F) : ndarray3 F :=
  Arr3 (shape1 data) (shape1 data) (shape0 weights)
       (fun a b i => get2 (DescrStatsW_corrcoef data (row weights i)) a b).

(** The matrix [weightfun_spatial_distance] normalises: entry (n, t) is
    1 / distance(data[n, :], data[t, :]) off the diagonal and 1 / nan on it. *)
Definition inverse_distances (distance : ndarray1 F -> ndarray1 F -> F)
           (data : ndarray2 F) : ndarray2 F :=
  map2 (fun x => fdiv (of_Z 1) x)
       (fill_diagonal (Arr2 (shape0 data) (shape0 data)
                            (fun n t => distance (row data n) (row data t))) nan).


(** The names under which [derive] selects the distance weighting. *)
Definition distance_names : list string :=
  ["distance"; "spatial distance"; "node distance"; "nodedistance"; "spatialdistance"].

Definition sliding_names : list string := ["sliding window"; "slidingwindow"].
Definition tapered_names : list string :=
  ["tapered sliding window"; "taperedslidingwindow"].
Definition derivative_names : list string :=
  ["temporal derivative"; "temporalderivative"].



(** Min-max normalisation of one entry. *)
Definition minmax (lo hi x : F) : F := fdiv (fsub x lo) (fsub hi lo).


(** First differences along time: entry (t, j) is data[t+1, j] - data[t, j]. *)
Definition differences (data : ndarray2 F) : ndarray2 F :=
  Arr2 (shape0 data - 1) (shape1 data)
       (fun t j => fsub (get2 data (S t) j) (get2 data t j)).

(** A sum of the entries of a list, in whatever order and grouping they
    are added: numpy adds from left to right or pairwise, depending on the
    length and on the memory layout of the array. *)
Inductive sum_of : list F -> F -> Prop :=
| sum_nil : sum_of [] (of_Z 0)
| sum_one x : sum_of [x] x
| sum_app l1 l2 s1 s2 :
    sum_of l1 s1 -> sum_of l2 s2 -> sum_of (l1 ++ l2)%list (fadd s1 s2)
| sum_perm l l' s : Permutation l l' -> sum_of l s -> sum_of l' s.

(** [m] is a mean of [l]: a sum of its entries divided by their number. *)
Definition mean_of (l : list F) (m : F) : Prop :=
  exists s, sum_of l s /\ m = fdiv s (of_Z (Z.of_nat (length l))).

(** [sd] is a population standard deviation of [l]: the root of a mean of
    the squared deviations from a mean, both sums divided by the number n
    of entries (the sample-corrected deviation divides by n - 1). *)
Definition population_std_of (l : list F) (sd : F) : Prop :=
  exists m s,
    mean_of l m
    /\ sum_of (map (fun v => fmul (fsub v m) (fsub v m)) l) s
    /\ sd = fsqrt (fdiv s (of_Z (Z.of_nat (length l)))).

(** The z-score in the words of section 4.4: subtract the mean, divide by
    the standard deviation. *)
Definition zscore (x : ndarray1 F) (t : nat) : F :=
  fdiv (fsub (get1 x t) (np_mean x)) (np_std 0 x).

(** The coupling that section 4.3 words: the moving average of width [k] of
    the products of the z-scored difference series of nodes [i] and [j]. *)
Definition zscore_coupling (data : ndarray2 F) (k i j t : nat) : F :=
  np_mean (Arr1 k (fun s => fmul (zscore (col (differences data) i) (t + s))
                                 (zscore (col (differences data) j) (t + s)))).
End Vocabulary.

(** ** Sample inputs *)

(** Five, three and two time points of two nodes, in float64. *)
Definition five_by_two : ndarray2 spec_float :=
  matrix_of [[1; 2]; [3; 5]; [4; 4]; [0; 7]; [2; 1]].
Definition three_by_two : ndarray2 spec_float := matrix_of [[1; 2]; [3; 5]; [4; 4]].

(** One node rising from 0 to 1 to 3. *)
Definition ramp : ndarray2 spec_float := matrix_of [[0]; [1]; [3]].

(** A hundred time points of two nodes. *)
Definition hundred_by_two : ndarray2 spec_float :=
  Arr2 100 2 (fun t j => f64 (Z.of_nat ((t * t + j) mod 7))).

(** Three time points of two nodes over the exact arithmetic, on a line at
    distances 5 and 10. *)
Definition three_by_two_exact : ndarray2 Exact.xq :=
  Arr2 3 2 (fun i j => of_Z (nth j (nth i [[0; 0]; [3; 4]; [6; 8]] []) 0)).

Definition jackknife_config : gmap string (pyval spec_float) :=
  {["method" := PStr "jackknife"]}.

Definition standardize_config : gmap string (pyval spec_float) :=
  {["method" := PStr "jackknife"; "postpro" := PStr "standardize"]}.

Definition fisher_config : gmap string (pyval spec_float) :=
  {["method" := PStr "jackknife"; "postpro" := PStr "fisher"]}.

(** Three time points of two nodes that mirror each other: every
    leave-one-out correlation of the two is exactly -1. *)
Definition mirrored : ndarray2 spec_float := matrix_of [[0; 0]; [2; -2]; [4; -4]].

Definition misspelt_dimord_config : gmap string (pyval spec_float) :=
  {["method" := PStr "jackknife"; "dimord" := PStr "node,tmie"]}.

Definition node_time_config : gmap string (pyval spec_float) :=
  {["method" := PStr "jackknife"; "dimord" := PStr "node,time"]}.

Definition window_config (k : Z) : gmap string (pyval spec_float) :=
  {["method" := PStr "slidingwindow"; "windowsize" := PInt k]}.


Definition euclidean_config {F : Type} : gmap string (pyval F) :=
  {["method" := PStr "distance"; "distance" := PStr "euclidean"]}.

(** ** slice_graph.py *)

Section SliceGraph.
Context {F : Type} `{Float64 F}.

(** A Python number: an int or a float. *)
Inductive pynum :=
| PyInt (z : Z)
| PyFloat (x : F).

(* float(x) *)
Definition py_float (x : pynum) : F :=
  match x with
  | PyInt z => of_Z z
  | PyFloat x => x
  end.

(* x * i for an int i: an int from an int, a float from a float *)
Definition py_mul_int (x : pynum) (i : Z) : pynum :=
  match x with
  | PyInt z => PyInt (z * i)
  | PyFloat x => PyFloat (fmul x (of_Z i))
  end.

(* x / i for an int i: true division, always a float *)
Definition py_truediv_int (x : pynum) (i : Z) : pynum :=
  PyFloat (fdiv (py_float x) (of_Z i)).

(* the loop of [pascal_row]: [count] further denominators from
   [denominator] on *)
Fixpoint pascal_loop (count : nat) (denominator : Z) (x : pynum) (numerator : Z)
         (result : list pynum) : list pynum :=
  match count with
  | O => result
  | S count =>
      let x := py_mul_int x numerator in
      let x := py_truediv_int x denominator in
      pascal_loop count (denominator + 1) x (numerator - 1) (result ++ [x])
  end.

(** [pascal_row(n)] *)
Definition pascal_row (n : Z) : list pynum :=
  let result := pascal_loop (Z.to_nat (n / 2)) 1 (PyInt 1) n [PyInt 1] in
  if Z.land n 1 =? 0 then result ++ rev (removelast result)
  else result ++ rev result.

(* x > y on floats: False when either is NaN *)
Definition fgt (x y : F) : bool := fle y x && negb (fle x y).

(* the indices of a 3-D array in C order *)
Definition indices3 (A : ndarray3 F) : list (nat * nat * nat) :=
  flat_map (fun i => flat_map (fun j => map (fun t => (i, j, t)) (seq 0 (dim2 A)))
                              (seq 0 (dim1 A)))
           (seq 0 (dim0 A)).

(* np.where(mask) on a 3-D array: the indices of the True entries, in C
   order *)
Definition np_where3 (mask : nat -> nat -> nat -> bool) (A : ndarray3 F)
  : list (nat * nat * nat) :=
  List.filter (fun '(i, j, t) => mask i j t) (indices3 A).

(** [edgeListFromMatrix(A, gtth)] for a 3-D array [A]: adding the array
    edg[-1]*A.shape[0] to the pair edg[0:2] shifts both node indices of an
    entry by its slice index times the number of nodes. *)
Definition edgeListFromMatrix (A : ndarray3 F) (gtth : F) : list (nat * nat) :=
  let edg := np_where3 (fun i j t => fgt (get3 A i j t) gtth) A in
  map (fun '(i, j, t) => (i + t * dim0 A, j + t * dim0 A)%nat) edg.
End SliceGraph.
Arguments pynum F : clear implicits.

(** Pascal's triangle by its rule: each entry is the sum of the two above. *)
Fixpoint choose (n k : nat) : nat :=
  match n, k with
  | _, O => 1
  | O, S _ => 0
  | S n', S k' => choose n' k' + choose n' k
  end.

(** The same numbers by exact integer quotients, for computing. *)
Fixpoint choose_quotient (n : Z) (k : nat) : Z :=
  match k with
  | O => 1
  | S k' => choose_quotient n k' * (n - Z.of_nat k') / Z.of_nat k
  end.

#[export] Instance spec_float_eq_dec : EqDecision spec_float.
Proof. solve_decision. Defined.

(** ** classes/bids.py: the history of a TenetoBIDS object

    The part of the object the history methods touch: the recorded calls
    and the two fields that [set_bids_suffix] and [set_pipeline_subdir]
    assign. *)

(** A value of [locals()] in a method: the object itself or a string
    argument. *)
Inductive argval :=
| ArgSelf
| ArgStr (s : string).

Record TenetoBIDS := {
  history : list (string * gmap string argval);
  bids_suffix : string;
  pipeline_subdir : string
}.

(** [add_history(self, fname, fargs, init)] *)
Definition add_history (self : TenetoBIDS) (fname : string)
           (fargs : gmap string argval) (init : Z) : TenetoBIDS :=
  let history := if init =? 1 then [] else history self in
  (* if 'self' in fargs: fargs.pop('self') *)
  let fargs := delete "self" fargs in
  {| history := history ++ [(fname, fargs)];
     bids_suffix := bids_suffix self;
     pipeline_subdir := pipeline_subdir self |}.

(** [set_bids_suffix(self, bids_suffix)]; inspect.stack()[0][3] is the name
    of the running method and locals() holds self and the argument. *)
Definition set_bids_suffix (self : TenetoBIDS) (suffix : string) : TenetoBIDS :=
  let self := add_history self "set_bids_suffix"
                          {["self" := ArgSelf; "bids_suffix" := ArgStr suffix]} 1 in
  {| history := history self;
     bids_suffix := suffix;
     pipeline_subdir := pipeline_subdir self |}.

(** [set_pipeline_subdir(self, pipeline_subdir)] *)
Definition set_pipeline_subdir (self : TenetoBIDS) (subdir : string) : TenetoBIDS :=
  let self := add_history self "set_pipeline_subdir"
                          {["self" := ArgSelf; "pipeline_subdir" := ArgStr subdir]} 1 in
  {| history := history self;
     bids_suffix := bids_suffix self;
     pipeline_subdir := subdir |}.

(** A call of one of the two setters, and a sequence of such calls. *)
Inductive setter_call :=
| SetBidsSuffix (suffix : string)
| SetPipelineSubdir (subdir : string).

Definition run_call (self : TenetoBIDS) (c : setter_call) : TenetoBIDS :=
  match c with
  | SetBidsSuffix s => set_bids_suffix self s
  | SetPipelineSubdir d => set_pipeline_subdir self d
  end.

(** What the history records for a call: the method's name and its
    arguments without self. *)
Definition recorded (c : setter_call) : string * gmap string argval :=
  match c with
  | SetBidsSuffix s => ("set_bids_suffix", {["bids_suffix" := ArgStr s]})
  | SetPipelineSubdir d => ("set_pipeline_subdir", {["pipeline_subdir" := ArgStr d]})
  end.

(** ** Further sample inputs *)

(** No time point of two nodes, and a single one. *)
Definition no_time_point : ndarray2 spec_float := Arr2 0 2 (fun _ _ => f64 0).
Definition one_by_two : ndarray2 spec_float := matrix_of [[1; 2]].

(** The leave-one-out weights of three time points, as a literal matrix. *)
Definition literal_config : gmap string (pyval spec_float) :=
  {["method" := PMat (matrix_of [[0; 1; 1]; [1; 0; 1]; [1; 1; 0]])]}.

Definition derivative_config (k : Z) : gmap string (pyval spec_float) :=
  {["method" := PStr "temporalderivative"; "windowsize" := PInt k]}.

Definition named_window_config : gmap string (pyval spec_float) :=
  {["method" := PStr "slidingwindow"; "windowsize" := PStr "three"]}.

(** A sliding-window configuration in which the caller keeps an entry of
    its own under 'taper'. *)
Definition own_taper_config : gmap string (pyval spec_float) :=
  {["method" := PStr "slidingwindow"; "windowsize" := PInt 2; "taper" := PStr "mine"]}.

(** A window of three points tapered by the uniform density on [-1, 1]. *)
Definition uniform_params : pyval spec_float :=
  PVec (Arr1 2 (fun i => nth i [f64 (-1); f64 2] S754_nan)).

Definition tapered_config : gmap string (pyval spec_float) :=
  {["method" := PStr "taperedslidingwindow"; "windowsize" := PInt 3;
    "distribution" := PStr "uniform"; "distribution_params" := uniform_params]}.


(** Two 2 x 2 slices with entries -1, 0, 0, 1 and 0, 1, 1, 2, and the same
    with a NaN at entry (0, 1) of the second slice. *)
Definition two_slices : ndarray3 spec_float :=
  Arr3 2 2 2 (fun i j t => f64 (Z.of_nat (i + j + t) - 1)).

Definition two_slices_nan : ndarray3 spec_float :=
  Arr3 2 2 2 (fun i j t => if Nat.eqb i 0 && Nat.eqb j 1 && Nat.eqb t 1
                           then S754_nan else f64 (Z.of_nat (i + j + t) - 1)).

Definition fresh_object : TenetoBIDS :=
  {| history := [("__init__", {["BIDS_dir" := ArgStr "/data"]})];
     bids_suffix := "";
     pipeline_subdir := "" |}.

(** * Properties *)

(** ** The sliding-window weight matrix *)

Section SlidingWindow.
Context {F : Type} `{Float64 F} `{Externals F}.

Lemma slice_len_within (T : nat) (k : Z) :
  0 <= k <= Z.of_nat T -> slice_len T k = Z.to_nat k.
Proof.
  intros Hk. unfold slice_len.
  destruct (Z.ltb_spec k 0); [lia|]. f_equal. lia.
Qed.

Lemma roll_index (T i j : nat) :
  (i <= j < T)%nat ->
  Z.to_nat ((Z.of_nat j - Z.of_nat i) mod Z.of_nat T) = (j - i)%nat.
Proof.
  intros Hij. rewrite Z.mod_small by lia. lia.
Qed.

Lemma roll_index_wrap (T i j : nat) :
  (j < i <= T)%nat ->
  Z.to_nat ((Z.of_nat j - Z.of_nat i) mod Z.of_nat T) = (j + T - i)%nat.
Proof.
  intros Hij.
  replace (Z.of_nat j - Z.of_nat i) with (Z.of_nat (j + T - i) + (-1) * Z.of_nat T) by lia.
  rewrite Z.mod_add by lia. rewrite Z.mod_small by lia. lia.
Qed.

Lemma count_window (T i k : nat) :
  (i + k <= T)%nat ->
  length (List.filter (fun j => Nat.leb i j && Nat.ltb j (i + k)) (seq 0 T)) = k.
Proof.
  intros Hik.
  replace T with (i + (k + (T - i - k)))%nat by lia.
  rewrite !seq_app, !List.filter_app, !length_app. simpl.
  assert (Hnone : forall a n (P : nat -> bool),
             (forall j, (a <= j < a + n)%nat -> P j = false) ->
             length (List.filter P (seq a n)) = 0%nat).
  { intros a n P. revert a. induction n as [|n IH]; intros a HP; simpl; [done|].
    rewrite HP by lia. apply IH. intros; apply HP; lia. }
  assert (Hall : forall a n (P : nat -> bool),
             (forall j, (a <= j < a + n)%nat -> P j = true) ->
             length (List.filter P (seq a n)) = n).
  { intros a n P. revert a. induction n as [|n IH]; intros a HP; simpl; [done|].
    rewrite HP by lia. simpl. f_equal. apply IH. intros; apply HP; lia. }
  rewrite Hnone, Hall, Hnone; [lia| | |].
  - intros j Hj. apply andb_false_intro2. apply Nat.ltb_ge. lia.
  - intros j Hj. apply andb_true_intro. split; [apply Nat.leb_le | apply Nat.ltb_lt]; lia.
  - intros j Hj. apply andb_false_intro1. apply Nat.leb_gt. lia.
Qed.

(** C2. For 1 <= k <= T the sliding-window weight matrix has T-k+1 rows of
    length T; row i is the base vector (k ones, then zeros) rolled by i,
    so its ones are exactly the k contiguous entries i, ..., i+k-1. *)
Theorem sliding_window_rows (T : nat) (k : Z) (params : gmap string (pyval F))
        (report : gmap string (rval F)) :
  1 <= k <= Z.of_nat T ->
  params !! "windowsize" = Some (PInt k) ->
  exists weights report' params',
    weightfun_sliding_window T params report = Ok (weights, report', params')
    /\ shape0 weights = Z.to_nat (Z.of_nat T - k + 1)
    /\ shape1 weights = T
    /\ (forall i, (i < shape0 weights)%nat ->
          length (List.filter (fun j => Nat.leb i j && Nat.ltb j (i + Z.to_nat k))
                         (seq 0 T)) = Z.to_nat k)
    /\ forall i j, (i < shape0 weights)%nat -> (j < T)%nat ->
         get2 weights i j = get1 (np_roll (base_vector T k) i) j
         /\ get2 weights i j =
              if Nat.leb i j && Nat.ltb j (i + Z.to_nat k) then of_Z 1 else of_Z 0.
Proof.
  intros Hk Hw. unfold weightfun_sliding_window, getitem. rewrite Hw. simpl.
  destruct (Z.ltb_spec k 0) as [|_]; [lia|]. simpl.
  unfold assign_prefix. rewrite slice_len_within by lia. simpl.
  rewrite Nat.eqb_refl. simpl.
  eexists _, _, _. split; [reflexivity|]. simpl.
  split; [f_equal; lia|]. split; [reflexivity|]. split.
  - intros i Hi. apply count_window. lia.
  - intros i j Hi Hj.
    destruct (Nat.leb_spec i j) as [Hij|Hij]; simpl.
    + rewrite roll_index by lia.
      destruct (Nat.ltb_spec j (i + Z.to_nat k)) as [Hjk|Hjk].
      * destruct (Nat.ltb_spec (j - i) (Z.to_nat k)); [|lia].
        destruct (Z.ltb_spec (Z.of_nat (j - i)) k); [done|lia].
      * destruct (Nat.ltb_spec (j - i) (Z.to_nat k)); [lia|].
        destruct (Z.ltb_spec (Z.of_nat (j - i)) k); [lia|done].
    + rewrite roll_index_wrap by lia.
      destruct (Nat.ltb_spec (j + T - i) (Z.to_nat k)); [lia|].
      destruct (Z.ltb_spec (Z.of_nat (j + T - i)) k); [lia|done].
Qed.
End SlidingWindow.

(** ** What [derive] does with a configuration *)

Section DeriveFacts.
Context {F : Type} `{Float64 F} `{Externals F}.

Lemma lookup_setdefault (key : string) (v : pyval F) (params : gmap string (pyval F))
      (k : string) :
  setdefault key v params !! k =
    match params !! k with
    | Some x => Some x
    | None => if decide (key = k) then Some v else None
    end.
Proof.
  unfold setdefault. destruct (params !! key) as [x|] eqn:E.
  - destruct (params !! k) eqn:E'; [done|].
    case_decide; [congruence|done].
  - rewrite lookup_insert. case_decide; subst.
    + by rewrite E.
    + by destruct (params !! k).
Qed.

Lemma lookup_defaults (params : gmap string (pyval F)) (k : string) :
  defaults params !! k =
    match params !! k with
    | Some x => Some x
    | None => default_entry k
    end.
Proof.
  unfold defaults, default_entry. rewrite !lookup_setdefault.
  destruct (params !! k); [done|].
  repeat case_decide; subst; done.
Qed.

Lemma lookup_defaults_Some (params : gmap string (pyval F)) (k : string) (v : pyval F) :
  params !! k = Some v -> defaults params !! k = Some v.
Proof. intros E. by rewrite lookup_defaults, E. Qed.

Lemma getitem_Some (params : gmap string (pyval F)) (k : string) (v : pyval F) :
  params !! k = Some v -> getitem params k = Ok v.
Proof. intros E. unfold getitem. by rewrite E. Qed.

Lemma orient_defaults (data : ndarray2 F) (params : gmap string (pyval F)) :
  orient data (defaults params) = Ok (time_by_node data params).
Proof.
  unfold orient, time_by_node, getitem. rewrite lookup_defaults.
  by destruct (params !! "dimord") as [v|].
Qed.

Lemma derive_unfold (data : ndarray2 F) (params : gmap string (pyval F)) :
  derive data params = derive_oriented (time_by_node data params) (defaults params).
Proof. unfold derive. by rewrite orient_defaults. Qed.

(** The report step (lines 181-183) goes through when [analysis_id] is a
    string. *)
Lemma report_step_ok (params : gmap string (pyval F)) (R : ndarray3 F)
      (report : gmap string (rval F)) :
  analysis_id_is_str params ->
  exists call, report_step (defaults params) R report = Ok (R, call).
Proof.
  intros Hid. unfold report_step, getitem. rewrite !lookup_defaults.
  destruct (params !! "report") as [rep|]; simpl.
  - destruct (eq_str rep "yes"); [|by eexists].
    destruct (params !! "analysis_id") as [v|] eqn:E; simpl; [|by eexists].
    destruct (Hid v E) as [a ->]. by eexists.
  - destruct (params !! "analysis_id") as [v|] eqn:E; simpl; [|by eexists].
    destruct (Hid v E) as [a ->]. by eexists.
Qed.

Lemma postprocess_none (params : gmap string (pyval F)) (R : ndarray3 F)
      (report : gmap string (rval F)) :
  no_postpro params -> postprocess (defaults params) R report = Ok (R, report).
Proof.
  intros Hno. unfold postprocess, getitem. rewrite lookup_defaults.
  by destruct Hno as [-> | ->].
Qed.

Lemma postprocess_requested (params : gmap string (pyval F)) (R : ndarray3 F)
      (report : gmap string (rval F)) (postpro : pyval F) :
  params !! "postpro" = Some postpro -> eq_str postpro "no" = false ->
  postprocess (defaults params) R report =
    ('(R', report') ← postpro_pipeline R postpro report;
     Ok (zero_infinities R', report')).
Proof.
  intros Hp Hne. unfold postprocess, getitem.
  rewrite lookup_defaults, Hp. simpl. by rewrite Hne.
Qed.

Lemma correct_jackknife_method (params : gmap string (pyval F)) (R : ndarray3 F)
      (m : pyval F) :
  params !! "method" = Some m ->
  correct_jackknife (defaults params) R =
    Ok (if eq_str m "jackknife" then negate R else R).
Proof.
  intros Hm. unfold correct_jackknife.
  by rewrite (getitem_Some _ _ _ (lookup_defaults_Some _ _ _ Hm)).
Qed.
End DeriveFacts.

(** ** Jackknife *)

Section Jackknife.
Context {F : Type} `{Float64 F} `{Externals F}.

Lemma jackknife_weights (T : nat) (report : gmap string (rval F)) :
  let weights := fst (weightfun_jackknife T report) in
  shape0 weights = T /\ shape1 weights = T
  /\ forall i j, get2 weights i j = if Nat.eqb i j then of_Z 0 else of_Z 1.
Proof. by repeat split. Qed.

Lemma dispatch_jackknife (data : ndarray2 F) (params : gmap string (pyval F))
      (report : gmap string (rval F)) :
  params !! "method" = Some (PStr "jackknife") ->
  dispatch data params report =
    Ok (Weight (fst (weightfun_jackknife (shape0 data) report)), report, params).
Proof. intros Hm. unfold dispatch. by rewrite (getitem_Some _ _ _ Hm). Qed.

(** C1. Under the jackknife method the weight matrix is the T x T matrix of
    ones with a zero diagonal, and the tensor [derive] returns is the
    tensor of weighted Pearson correlations of those weight rows with every
    entry multiplied by -1, once; a requested post-processing pipeline
    receives that negated tensor. *)
Theorem jackknife_sign_inverted_once (data : ndarray2 F)
        (params : gmap string (pyval F)) :
  params !! "method" = Some (PStr "jackknife") ->
  shape0 (time_by_node data params) <> 0%nat ->
  analysis_id_is_str params ->
  let data' := time_by_node data params in
  let T := shape0 data' in
  let weights := fst (weightfun_jackknife T ∅) in
  (shape0 weights = T /\ shape1 weights = T
   /\ forall i j, get2 weights i j = if Nat.eqb i j then of_Z 0 else of_Z 1)
  /\ (forall a b i,
        get3 (negate (pearson_tensor data' weights)) a b i
        = fmul (get2 (DescrStatsW_corrcoef data' (row weights i)) a b) (of_Z (-1)))
  /\ (no_postpro params ->
        returned (derive data params)
        = Ok (PyArray (negate (pearson_tensor data' weights))))
  /\ (forall postpro R' report',
        params !! "postpro" = Some postpro -> eq_str postpro "no" = false ->
        postpro_pipeline (negate (pearson_tensor data' weights)) postpro ∅
          = Ok (R', report') ->
        returned (derive data params) = Ok (PyArray (zero_infinities R'))).
Proof.
  intros Hm HT Hid data' T weights.
  split; [apply jackknife_weights|]. split; [done|].
  assert (Hcorr : correlate data' weights = Ok (pearson_tensor data' weights)).
  { unfold correlate. simpl. fold T. by destruct (Nat.eqb_spec T 0). }
  split.
  - intros Hno. rewrite derive_unfold. unfold derive_oriented.
    rewrite (dispatch_jackknife _ _ _ (lookup_defaults_Some _ _ _ Hm)).
    unfold reduce_and_report. fold data' T weights. rewrite Hcorr. simpl.
    rewrite (correct_jackknife_method _ _ _ Hm). simpl.
    rewrite (postprocess_none _ _ _ Hno). simpl.
    destruct (report_step_ok params (negate (pearson_tensor data' weights)) ∅ Hid)
      as [call ->]. done.
  - intros postpro R' report' Hp Hne Hpipe.
    rewrite derive_unfold. unfold derive_oriented.
    rewrite (dispatch_jackknife _ _ _ (lookup_defaults_Some _ _ _ Hm)).
    unfold reduce_and_report. fold data' T weights. rewrite Hcorr. simpl.
    rewrite (correct_jackknife_method _ _ _ Hm). simpl.
    rewrite (postprocess_requested _ _ _ _ Hp Hne), Hpipe. simpl.
    destruct (report_step_ok params (zero_infinities R') report' Hid)
      as [call ->]. done.
Qed.
End Jackknife.

(** ** Temporal derivative coupling *)

Section TemporalDerivative.
Context {F : Type} `{Float64 F} `{Externals F}.

Lemma np_sum_sum_of (l : list F) : sum_of l (np_sum l).
Proof.
  destruct l as [|x r]; [constructor|]. simpl.
  assert (Hgo : forall (r pre : list F) acc,
            sum_of pre acc -> sum_of (pre ++ r)%list (fold_left fadd r acc)).
  { clear. induction r as [|y r IH]; intros pre acc Hs; simpl.
    - by rewrite app_nil_r.
    - replace (pre ++ y :: r)%list with ((pre ++ [y]) ++ r)%list
        by (by rewrite <- app_assoc).
      apply IH. apply sum_app; [done|constructor]. }
  apply (Hgo r [x] x). constructor.
Qed.

Lemma np_mean_mean_of (x : ndarray1 F) : mean_of (to_list1 x) (np_mean x).
Proof.
  exists (np_sum (to_list1 x)). split; [apply np_sum_sum_of|].
  unfold np_mean, to_list1. by rewrite length_map, length_seq.
Qed.

Lemma np_std_population (x : ndarray1 F) : population_std_of (to_list1 x) (np_std 0 x).
Proof.
  exists (np_mean x), (np_sum (map (fun v => fmul (fsub v (np_mean x)) (fsub v (np_mean x)))
                                   (to_list1 x))).
  split; [apply np_mean_mean_of|]. split; [apply np_sum_sum_of|].
  unfold np_std. rewrite map_map. do 3 f_equal.
  unfold to_list1. rewrite length_map, length_seq. lia.
Qed.

Lemma window_entries {A : Type} (g : nat -> A) (t n : nat) :
  map (fun s => g (t + s)%nat) (seq 0 n) = map g (seq t n).
Proof.
  assert (Hgo : forall a, map (fun s => g (t + s)%nat) (seq a n) = map g (seq (t + a) n)).
  { induction n as [|n IH]; intros a; [done|]. simpl. f_equal.
    rewrite IH. by rewrite Nat.add_succ_r. }
  rewrite Hgo. by rewrite Nat.add_0_r.
Qed.

(** C3 (as amended). On a (T, N) input, T >= 1, with a window size k from 0
    to T, [temporal_derivative] takes the T-1 first differences, divides
    each node's difference series by a scale that is its population
    standard deviation, the mean not being subtracted from the series,
    multiplies the scaled series of every node pair entry by entry and
    takes a mean of every window of k consecutive products; the result has
    shape (N, N, T-k), its depth being the length of the difference series
    minus k plus 1.  The sums are in the order numpy happens to add. *)
Theorem temporal_derivative_shape (data : ndarray2 F) (params : gmap string (pyval F))
        (report : gmap string (rval F)) (k : Z) :
  params !! "windowsize" = Some (PInt k) ->
  (1 <= shape0 data)%nat ->
  0 <= k <= Z.of_nat (shape0 data) ->
  exists R report' (sd : nat -> F),
    temporal_derivative data params report = Ok (R, report')
    /\ shape0 (differences data) = (shape0 data - 1)%nat
    /\ (forall t j, get2 (differences data) t j
                    = fsub (get2 data (S t) j) (get2 data t j))
    /\ (forall j, population_std_of (to_list1 (col (differences data) j)) (sd j))
    /\ dim0 R = shape1 data /\ dim1 R = shape1 data
    /\ Z.of_nat (dim2 R) = Z.of_nat (shape0 data) - k
    /\ Z.of_nat (dim2 R) = Z.of_nat (shape0 (differences data)) - k + 1
    /\ forall i j t,
         mean_of (map (fun s => fmul (fdiv (get2 (differences data) s i) (sd i))
                                     (fdiv (get2 (differences data) s j) (sd j)))
                      (seq t (Z.to_nat k)))
                 (get3 R i j t).
Proof.
  intros Hw HT Hk. unfold temporal_derivative.
  rewrite (getitem_Some _ _ _ Hw). simpl.
  destruct (Z.ltb_spec (Z.of_nat (shape0 data - 1) - k + 1) 0) as [|_]; [lia|].
  destruct (Z.ltb_spec k 0) as [|_]; [lia|]. simpl.
  set (sd := fun j => np_std 0 (col (differences data) j)).
  set (scaled := fun s j => fdiv (get2 (differences data) s j) (sd j)).
  exists (Arr3 (shape1 data) (shape1 data)
               (Z.to_nat (Z.of_nat (shape0 data - 1) - k + 1))
               (fun i j t => np_mean (Arr1 (Z.to_nat k)
                                           (fun s => fmul (scaled (t + s)%nat i)
                                                          (scaled (t + s)%nat j))))).
  eexists _, sd.
  split; [reflexivity|].
  split; [done|]. split; [done|]. split; [intros j; apply np_std_population|].
  split; [done|]. split; [done|].
  split; [cbn [dim2]; lia|]. split; [cbn [dim2 differences shape0]; lia|].
  intros i j t. cbn [get3].
  rewrite <- (window_entries (fun s => fmul (scaled s i) (scaled s j))).
  apply (np_mean_mean_of (Arr1 (Z.to_nat k) _)).
Qed.
End TemporalDerivative.

(** ** The exact arithmetic obeys the order laws *)

Ltac q_prop :=
  repeat match goal with
    | H : Qle_bool _ _ = true |- _ => apply Qle_bool_iff in H
    | H : Qeq_bool _ _ = true |- _ => apply Qeq_bool_iff in H
    | H : Qeq_bool _ _ = false |- _ => apply Qeq_bool_neq in H
    | |- Qle_bool _ _ = true => apply Qle_bool_iff
    end;
  rewrite ?Qred_correct in *;
  change (inject_Z 0) with 0%Q in *;
  change (inject_Z 1) with 1%Q in *.

#[export] Instance exact_order : RoundedOrder Exact.xq.
Proof.
  split.
  - reflexivity.
  - intros [|[]|q] Hx; cbn in *; try done. q_prop. lra.
  - intros [|[]|p] [|[]|q] [|[]|r] H1 H2; cbn in *; try done. q_prop. lra.
  - intros [|[]|p] [|[]|q] Hx Hy; cbn in *; try done; auto.
    destruct (Qlt_le_dec p q); [left|right]; q_prop; lra.
  - intros [|[]|p] [|[]|q] Hxy; cbn in *; try done.
  - intros [|[]|p] [|[]|q] Hxy; cbn in *; try done.
  - intros [|[]|p] [|[]|q] Hxy; cbn in *; try done.
  - intros [|[]|p] [|[]|q] Hxy Hn; cbn in *; try done. q_prop. lra.
  - intros [|[]|p] [|[]|p'] [|[]|q] Hxy Hn Hn'; cbn in *; try done. q_prop. lra.
  - intros [|[]|p] [|[]|q] Ha Hab Hn; cbn in *; try done.
    destruct (Qeq_bool q 0) eqn:Eq.
    + destruct (Qeq_bool p 0) eqn:Ep; [done|]. q_prop. exfalso. apply Ep. lra.
    + cbn. q_prop. split; q_prop.
      * apply Qle_shift_div_l; lra.
      * apply Qle_shift_div_r; lra.
Qed.

(** ** Distance weights *)

Section SpatialDistance.
Context {F : Type} `{Float64 F} `{Externals F}.


Lemma ravel_nonempty (a : ndarray2 F) :
  shape0 a <> 0%nat -> shape1 a <> 0%nat -> exists x l, ravel a = x :: l.
Proof.
  intros H0' H1'. unfold ravel, to_list2.
  destruct (shape0 a) as [|n]; [done|]. destruct (shape1 a) as [|m]; [done|].
  simpl. by eexists _, _.
Qed.

(** The function returns whenever the metric is known and there is at
    least one time point; its result is the min-max normalised matrix of
    inverse distances with the diagonal set to 1. *)
Lemma spatial_distance_returns (data : ndarray2 F) (params : gmap string (pyval F))
      (report : gmap string (rval F)) (d : pyval F)
      (distance : ndarray1 F -> ndarray1 F -> F) :
  params !! "distance" = Some d ->
  getDistanceFunction d = Ok distance ->
  shape0 data <> 0%nat ->
  exists lo hi,
    np_nanmin (inverse_distances distance data) = Ok lo
    /\ np_nanmax (inverse_distances distance data) = Ok hi
    /\ weightfun_spatial_distance data params report
       = Ok (fill_diagonal (map2 (minmax lo hi) (inverse_distances distance data))
                           (of_Z 1), report).
Proof.
  intros Hd Hg HT. unfold weightfun_spatial_distance.
  rewrite (getitem_Some _ _ _ Hd). simpl. rewrite Hg. simpl.
  fold (inverse_distances distance data).
  destruct (ravel_nonempty (inverse_distances distance data)) as (x & l & Hr);
    [done|done|].
  unfold np_nanmin, np_nanmax. rewrite Hr. simpl.
  by eexists _, _.
Qed.

Section Pick.
Context `{!RoundedOrder F}.
Variable r : F -> F -> bool.
Hypothesis r_refl : forall x, isnan x = false -> r x x = true.
Hypothesis r_trans : forall x y z, r x y = true -> r y z = true -> r x z = true.
Hypothesis r_total : forall x y,
  isnan x = false -> isnan y = false -> r x y = true \/ r y x = true.
Hypothesis r_not_nan : forall x y, r x y = true -> isnan x = false /\ isnan y = false.

End Pick.





(** C4 (as amended). The distance method works over time points: for a
    (T, N) input it takes the distance between the rows of the data, each
    the N node values at one time point, and builds a T x T weight matrix;
    [derive] then uses row i of it as the observation weights of slice i,
    as for every other weight matrix. *)
Theorem distance_weights_over_time (data : ndarray2 F)
        (params : gmap string (pyval F)) (m : string) (d : pyval F)
        (distance : ndarray1 F -> ndarray1 F -> F) :
  params !! "method" = Some (PStr m) ->
  In m distance_names ->
  params !! "distance" = Some d ->
  getDistanceFunction d = Ok distance ->
  shape0 (time_by_node data params) <> 0%nat ->
  no_postpro params ->
  analysis_id_is_str params ->
  let data' := time_by_node data params in
  exists weights lo hi,
    weightfun_spatial_distance data' (defaults params) ∅ = Ok (weights, ∅)
    /\ shape0 weights = shape0 data' /\ shape1 weights = shape0 data'
    /\ (forall n, len1 (row data' n) = shape1 data')
    /\ (forall n t, n <> t ->
          get2 weights n t
          = minmax lo hi (fdiv (of_Z 1) (distance (row data' n) (row data' t))))
    /\ returned (derive data params) = Ok (PyArray (pearson_tensor data' weights))
    /\ (forall a b i,
          get3 (pearson_tensor data' weights) a b i
          = get2 (DescrStatsW_corrcoef data' (row weights i)) a b).
Proof.
  intros Hm Hin Hd Hg HT Hno Hid data'.
  destruct (spatial_distance_returns data' (defaults params) ∅ d distance
              (lookup_defaults_Some _ _ _ Hd) Hg HT) as (lo & hi & Hlo & Hhi & Hw).
  eexists _, lo, hi. split; [exact Hw|].
  split; [done|]. split; [done|]. split; [done|]. split.
  { intros n t Hnt. simpl. destruct (Nat.eqb_spec n t); [done|]. reflexivity. }
  split; [|done].
  rewrite derive_unfold. fold data'. unfold derive_oriented.
  assert (Hdisp : forall report,
    dispatch data' (defaults params) report
    = ('(weights, report) ← weightfun_spatial_distance data' (defaults params) report;
       Ok (Weight weights, report, defaults params))).
  { intros report. unfold dispatch.
    rewrite (getitem_Some _ _ _ (lookup_defaults_Some _ _ _ Hm)). simpl.
    unfold distance_names in Hin. simpl in Hin.
    destruct Hin as [<-|[<-|[<-|[<-|[<-|[]]]]]]; reflexivity. }
  rewrite Hdisp, Hw. simpl.
  unfold reduce_and_report, correlate. simpl.
  destruct (Nat.eqb_spec (shape0 data') 0) as [|_]; [done|]. simpl.
  rewrite (correct_jackknife_method _ _ _ Hm).
  assert (Hj : eq_str (PStr m : pyval F) "jackknife" = false).
  { unfold distance_names in Hin. simpl in Hin.
    destruct Hin as [<-|[<-|[<-|[<-|[<-|[]]]]]]; reflexivity. }
  rewrite Hj. simpl. rewrite (postprocess_none _ _ _ Hno). simpl.
  match goal with
  | |- context [report_step _ ?R ?rep] =>
      destruct (report_step_ok params R rep Hid) as [call ->]
  end.
  done.
Qed.
End SpatialDistance.

(** ** Orientation, the returned value, post-processing *)

Section Dispatcher.
Context {F : Type} `{Float64 F} `{Externals F}.

Lemma time_by_node_other (data : ndarray2 F) (params : gmap string (pyval F)) :
  params !! "dimord" <> Some (PStr "node,time") -> time_by_node data params = data.
Proof.
  intros Hne. unfold time_by_node.
  destruct (params !! "dimord") as [v|]; [|done].
  destruct v as [s| | |]; try done. simpl.
  case_bool_decide; [subst; done|done].
Qed.

Lemma time_by_node_exact (data : ndarray2 F) (params : gmap string (pyval F)) :
  params !! "dimord" = Some (PStr "node,time") ->
  time_by_node data params = transpose data.
Proof. intros E. unfold time_by_node. by rewrite E. Qed.

(** C10. [derive] checks [dimord] against nothing: whatever the entry holds
    other than exactly the string 'node,time' (a misspelling, another value,
    or no entry), the orientation step raises nothing and leaves the data
    as given, to be used as time x node; exactly 'node,time' transposes. *)
Theorem dimord_not_validated (data : ndarray2 F) (params : gmap string (pyval F)) :
  (params !! "dimord" <> Some (PStr "node,time") ->
   orient data (defaults params) = Ok data
   /\ derive data params = derive_oriented data (defaults params))
  /\ (params !! "dimord" = Some (PStr "node,time") ->
      orient data (defaults params) = Ok (transpose data)
      /\ derive data params = derive_oriented (transpose data) (defaults params)).
Proof.
  split; intros Hd.
  - rewrite orient_defaults, derive_unfold. by rewrite (time_by_node_other _ _ Hd).
  - rewrite orient_defaults, derive_unfold. by rewrite (time_by_node_exact _ _ Hd).
Qed.

(** What [derive_oriented] returns is an array. *)
Lemma derive_oriented_returns (data : ndarray2 F) (params : gmap string (pyval F))
      (out : pyobj F) :
  returned (derive_oriented data params) = Ok out ->
  exists rel report params' R call,
    dispatch data params ∅ = Ok (rel, report, params')
    /\ reduce_and_report data params' rel report = Ok (R, call)
    /\ out = PyArray R.
Proof.
  unfold derive_oriented.
  destruct (dispatch data params ∅) as [[[rel report] params']|e]; [|done].
  destruct (reduce_and_report data params' rel report) as [[R call]|e] eqn:E; [|done].
  simpl. intros [= <-]. by eexists _, _, _, _, _.
Qed.

(** C7 (the code against its docstring). Whatever the data and the
    configuration, when [derive] returns, the value it returns is the
    connectivity tensor alone: it is never the pair of the tensor and the
    report. *)
Theorem derive_returns_tensor_alone (data : ndarray2 F)
        (params : gmap string (pyval F)) (out : pyobj F) :
  returned (derive data params) = Ok out ->
  (exists R, out = PyArray R) /\ (forall a b, out <> PyTuple2 a b).
Proof.
  rewrite derive_unfold. intros Hr.
  destruct (derive_oriented_returns _ _ _ Hr) as (? & ? & ? & R & ? & _ & _ & ->).
  split; [by exists R|done].
Qed.

Lemma no_infinity_left (R : ndarray3 F) (i j t : nat) :
  isinf (get3 (zero_infinities R) i j t) = false.
Proof.
  simpl. destruct (isinf (get3 R i j t)) eqn:E; [apply isinf_zero|done].
Qed.

Lemma postprocess_requested_inv (params : gmap string (pyval F)) (R R1 : ndarray3 F)
      (report report1 : gmap string (rval F)) (postpro : pyval F) :
  params !! "postpro" = Some postpro -> eq_str postpro "no" = false ->
  postprocess params R report = Ok (R1, report1) ->
  exists R', postpro_pipeline R postpro report = Ok (R', report1)
             /\ R1 = zero_infinities R'.
Proof.
  intros Hp Hne. unfold postprocess. rewrite (getitem_Some _ _ _ Hp). simpl.
  rewrite Hne. simpl.
  destruct (postpro_pipeline R postpro report) as [[R' report']|e]; [|done].
  simpl. intros [= <- <-]. by exists R'.
Qed.

Lemma report_step_inv (params : gmap string (pyval F)) (R R1 : ndarray3 F)
      (report : gmap string (rval F)) (call : option (gmap string (rval F) * string)) :
  report_step params R report = Ok (R1, call) -> R1 = R.
Proof.
  unfold report_step.
  destruct (getitem params "report") as [rep|]; [|done]. simpl.
  destruct (eq_str rep "yes"); [|by intros [= <- _]].
  destruct (getitem params "analysis_id") as [[a| | |]|]; try done.
  simpl. by intros [= <- _].
Qed.
End Dispatcher.

(** ** Effects of [derive] on the caller's configuration *)

Section Effects.
Context {F : Type} `{Float64 F} `{Externals F}.

Ltac bind_inv H :=
  repeat match type of H with
    | context [mbind _ ?r] =>
        let E := fresh "E" in
        destruct r eqn:E; simpl in H; [|discriminate H]
    | context [let '(_, _) := ?p in _] => destruct p
    end.

Lemma sliding_window_writes (T : nat) (params params' : gmap string (pyval F))
      (report report' : gmap string (rval F)) (weights : ndarray2 F) :
  weightfun_sliding_window T params report = Ok (weights, report', params') ->
  params' = <["taper" := PStr "untapered/uniform"]> params.
Proof.
  unfold weightfun_sliding_window. intros Hw. bind_inv Hw. by injection Hw as _ _ <-.
Qed.

Lemma tapered_window_writes (T : nat) (params params' : gmap string (pyval F))
      (report report' : gmap string (rval F)) (weights : ndarray2 F) :
  weightfun_tapered_sliding_window T params report = Ok (weights, report', params') ->
  exists taper x, params' = <["taper_window" := PVec x]> (<["taper" := PVec taper]> params).
Proof.
  unfold weightfun_tapered_sliding_window. intros Hw. bind_inv Hw.
  injection Hw as _ _ <-. by eexists _, _.
Qed.

(** The dispatch writes into [params] under 'taper' and 'taper_window' only. *)
Lemma dispatch_params_frame (data : ndarray2 F) (params params' : gmap string (pyval F))
      (report report' : gmap string (rval F)) (rel : relation) (k : string) :
  dispatch data params report = Ok (rel, report', params') ->
  k <> "taper" -> k <> "taper_window" ->
  params' !! k = params !! k.
Proof.
  unfold dispatch. intros Hd Hk1 Hk2.
  destruct (getitem params "method") as [[m|z|v|w]|]; simpl in Hd; try done;
    repeat match type of Hd with
           | context [if ?b then _ else _] => destruct b; simpl in Hd
           end; try done;
    try (by injection Hd as _ _ <-).
  - destruct (weightfun_sliding_window _ _ _) as [[[w r] p]|] eqn:E; [|done].
    simpl in Hd. injection Hd as _ _ <-.
    rewrite (sliding_window_writes _ _ _ _ _ _ E). by rewrite lookup_insert_ne.
  - destruct (weightfun_tapered_sliding_window _ _ _) as [[[w r] p]|] eqn:E; [|done].
    simpl in Hd. injection Hd as _ _ <-.
    destruct (tapered_window_writes _ _ _ _ _ _ E) as (t & x & ->).
    by rewrite !lookup_insert_ne.
  - destruct (weightfun_spatial_distance _ _ _) as [[w r]|]; [|done].
    simpl in Hd. by injection Hd as _ _ <-.
  - destruct (temporal_derivative _ _ _) as [[w r]|]; [|done].
    simpl in Hd. by injection Hd as _ _ <-.
Qed.

Lemma eq_str_true (v : pyval F) (s : string) : eq_str v s = true -> v = PStr s.
Proof.
  destruct v as [s'| | |]; simpl; try done.
  case_bool_decide; [by subst|done].
Qed.

Lemma getitem_inv (params : gmap string (pyval F)) (key : string) (v : pyval F) :
  getitem params key = Ok v -> params !! key = Some v.
Proof. unfold getitem. destruct (params !! key); [by intros [= ->]|done]. Qed.

Lemma reduce_and_report_inv (data : ndarray2 F) (params : gmap string (pyval F))
      (rel : relation) (report : gmap string (rval F)) (R : ndarray3 F)
      (call : option (gmap string (rval F) * string)) :
  reduce_and_report data params rel report = Ok (R, call) ->
  exists R0 R1 R2 report1,
    match rel with
    | Weight weights => correlate data weights
    | Coupling R => Ok R
    end = Ok R0
    /\ correct_jackknife params R0 = Ok R1
    /\ postprocess params R1 report = Ok (R2, report1)
    /\ report_step params R2 report1 = Ok (R, call).
Proof.
  unfold reduce_and_report. intros Hr.
  destruct (match rel with Weight w => correlate data w | Coupling R' => Ok R' end)
    as [R0|]; [|done]. simpl in Hr.
  destruct (correct_jackknife params R0) as [R1|] eqn:E1; [|done]. simpl in Hr.
  destruct (postprocess params R1 report) as [[R2 report1]|] eqn:E2; [|done].
  simpl in Hr. by exists R0, R1, R2, report1.
Qed.

Lemma report_step_call (params : gmap string (pyval F)) (R R1 : ndarray3 F)
      (report : gmap string (rval F)) (call : option (gmap string (rval F) * string)) :
  report_step params R report = Ok (R1, call) ->
  (forall c, call = Some c ->
     params !! "report" = Some (PStr "yes")
     /\ exists a, params !! "analysis_id" = Some (PStr a)
                  /\ c = (report, "./report/" +:+ a))
  /\ (params !! "report" = Some (PStr "yes") -> is_Some call).
Proof.
  unfold report_step. intros Hs.
  destruct (getitem params "report") as [rep|] eqn:Er; [|done]. simpl in Hs.
  apply getitem_inv in Er.
  destruct (eq_str rep "yes") eqn:Ey.
  - apply eq_str_true in Ey. subst rep.
    destruct (getitem params "analysis_id") as [[a| | |]|] eqn:Ea; try done.
    simpl in Hs. apply getitem_inv in Ea. injection Hs as _ <-. split.
    + intros c [= <-]. split; [done|]. by exists a.
    + by eexists.
  - injection Hs as _ <-. split; [done|].
    intros Hy. rewrite Er in Hy. injection Hy as ->. done.
Qed.


(** C9. When post-processing is requested ([postpro] is anything but 'no')
    and [derive] returns, the tensor it returns is the output of the
    pipeline with every infinite entry replaced by 0 and every other entry
    kept, so no entry of it is infinite. *)
Theorem infinities_zeroed (data : ndarray2 F) (params : gmap string (pyval F))
        (postpro : pyval F) (out : pyobj F) :
  params !! "postpro" = Some postpro ->
  eq_str postpro "no" = false ->
  returned (derive data params) = Ok out ->
  exists R R' Rin report report',
    out = PyArray R
    /\ postpro_pipeline Rin postpro report = Ok (R', report')
    /\ (forall i j t,
          get3 R i j t = if isinf (get3 R' i j t) then of_Z 0 else get3 R' i j t)
    /\ (forall i j t, isinf (get3 R i j t) = false).
Proof.
  intros Hp Hne. rewrite derive_unfold. intros Hr.
  destruct (derive_oriented_returns _ _ _ Hr)
    as (rel & report & params' & R & call & Hd & Hrr & ->).
  destruct (reduce_and_report_inv _ _ _ _ _ _ Hrr)
    as (R0 & R1 & R2 & report1 & _ & _ & Hpost & Hs).
  assert (Hp' : params' !! "postpro" = Some postpro).
  { rewrite (dispatch_params_frame _ _ _ _ _ _ "postpro" Hd) by done.
    by apply lookup_defaults_Some. }
  destruct (postprocess_requested_inv _ _ _ _ _ _ Hp' Hne Hpost) as (R' & Hpipe & ->).
  apply report_step_inv in Hs. subst R.
  exists (zero_infinities R'), R', R1, report, report1.
  split; [done|]. split; [done|]. split; [done|].
  intros i j t. apply no_infinity_left.
Qed.
End Effects.

(** ** Configuration faults *)

Section Faults.
Context {F : Type} `{Float64 F} `{Externals F}.





End Faults.

(** ** Calling [derive] again *)

Section Again.
Context {F : Type} `{Float64 F} `{Externals F}.

Lemma defaults_fixed (params : gmap string (pyval F)) :
  is_Some (params !! "dimord") -> is_Some (params !! "report") ->
  is_Some (params !! "analysis_id") -> is_Some (params !! "postpro") ->
  defaults params = params.
Proof.
  intros [? Hd] [? Hr] [? Ha] [? Hp]. unfold defaults, setdefault.
  by rewrite Hd, Hr, Ha, Hp.
Qed.

Lemma defaults_defaults (params : gmap string (pyval F)) :
  defaults (defaults params) = defaults params.
Proof.
  apply defaults_fixed; rewrite lookup_defaults;
    by destruct (params !! _); eexists.
Qed.






End Again.

(** ** From the dispatch to the returned tensor *)

Section Through.
Context {F : Type} `{Float64 F} `{Externals F}.

Lemma reduce_and_report_agree (data : ndarray2 F) (p q : gmap string (pyval F))
      (rel : relation) (report : gmap string (rval F)) :
  q !! "method" = p !! "method" -> q !! "postpro" = p !! "postpro" ->
  q !! "report" = p !! "report" -> q !! "analysis_id" = p !! "analysis_id" ->
  reduce_and_report data q rel report = reduce_and_report data p rel report.
Proof.
  intros Hm Hp Hr Ha.
  unfold reduce_and_report, correct_jackknife, postprocess, report_step, getitem.
  by rewrite Hm, Hp, Hr, Ha.
Qed.

(** Without post-processing, what [derive] returns after a successful
    dispatch is the reduced tensor, negated under the jackknife method only;
    the dict is left as the dispatch left it, and the report that reaches
    gen_report is the one the dispatch built. *)
Lemma derive_after_dispatch (data : ndarray2 F) (params params' : gmap string (pyval F))
      (rel : relation) (report : gmap string (rval F)) (m : pyval F) (R0 : ndarray3 F) :
  dispatch (time_by_node data params) (defaults params) ∅ = Ok (rel, report, params') ->
  match rel with
  | Weight weights => correlate (time_by_node data params) weights
  | Coupling R => Ok R
  end = Ok R0 ->
  params !! "method" = Some m ->
  no_postpro params ->
  analysis_id_is_str params ->
  returned (derive data params)
  = Ok (PyArray (if eq_str m "jackknife" then negate R0 else R0))
  /\ params_after (derive data params) = params'
  /\ (forall c, gen_report_call (derive data params) = Some c -> c.1 = report).
Proof.
  intros Hd Hrel Hm Hno Hid. rewrite derive_unfold. unfold derive_oriented.
  rewrite Hd.
  rewrite (reduce_and_report_agree _ (defaults params))
    by (by apply (dispatch_params_frame _ _ _ _ _ _ _ Hd)).
  unfold reduce_and_report. rewrite Hrel. simpl.
  rewrite (correct_jackknife_method _ _ _ Hm). simpl.
  rewrite (postprocess_none _ _ _ Hno). simpl.
  destruct (report_step_ok params (if eq_str m "jackknife" then negate R0 else R0)
                           report Hid) as [call Hcall].
  rewrite Hcall. simpl. split; [done|]. split; [done|].
  intros c ->.
  destruct (report_step_call _ _ _ _ _ Hcall) as [Hc _].
  by destruct (Hc c eq_refl) as (_ & a & _ & ->).
Qed.

Lemma correlate_rows (data weights : ndarray2 F) :
  shape0 weights <> 0%nat -> correlate data weights = Ok (pearson_tensor data weights).
Proof. intros Hw. unfold correlate. by destruct (Nat.eqb_spec (shape0 weights) 0). Qed.

Lemma correlate_no_rows (data weights : ndarray2 F) :
  shape0 weights = 0%nat -> raises (correlate data weights) "ValueError".
Proof. intros Hw. unfold correlate. rewrite Hw. by eexists. Qed.

(** X2. A literal weight matrix of the size of the data is used as it is: the
    tensor returned without post-processing is the weighted correlation of
    its rows, with no change of sign, and nothing but the defaults is
    written into the dict. *)
Theorem derive_literal_weights (data : ndarray2 F) (params : gmap string (pyval F))
        (weights : ndarray2 F) :
  params !! "method" = Some (PMat weights) ->
  shape0 weights = shape1 weights ->
  shape0 weights = shape0 (time_by_node data params) ->
  shape0 weights <> 0%nat ->
  no_postpro params ->
  analysis_id_is_str params ->
  returned (derive data params)
  = Ok (PyArray (pearson_tensor (time_by_node data params) weights))
  /\ dim2 (pearson_tensor (time_by_node data params) weights)
     = shape0 (time_by_node data params)
  /\ params_after (derive data params) = defaults params
  /\ (forall c, gen_report_call (derive data params) = Some c -> c.1 = ∅).
Proof.
  intros Hm Hsq Hsz Hne Hno Hid.
  assert (Hd : dispatch (time_by_node data params) (defaults params) ∅
               = Ok (Weight weights, ∅, defaults params)).
  { unfold dispatch. rewrite (getitem_Some _ _ _ (lookup_defaults_Some _ _ _ Hm)).
    simpl. rewrite Hsq, Nat.eqb_refl. simpl. rewrite <- Hsq, Hsz, Nat.eqb_refl. done. }
  destruct (derive_after_dispatch data params _ _ _ (PMat weights) _ Hd
              (correlate_rows _ _ Hne) Hm Hno Hid) as (Hr & Hp & Hc).
  split; [exact Hr|]. split; [simpl; lia|]. split; [exact Hp|exact Hc].
Qed.

(** X3. With no time point the jackknife has no weight row to reduce: [derive]
    raises ValueError (the transposition of the empty stack), having
    written the defaults. *)
Theorem derive_jackknife_no_time_points (data : ndarray2 F)
        (params : gmap string (pyval F)) :
  params !! "method" = Some (PStr "jackknife") ->
  shape0 (time_by_node data params) = 0%nat ->
  raises (returned (derive data params)) "ValueError"
  /\ params_after (derive data params) = defaults params
  /\ gen_report_call (derive data params) = None.
Proof.
  intros Hm HT. rewrite derive_unfold. unfold derive_oriented.
  rewrite (dispatch_jackknife _ _ _ (lookup_defaults_Some _ _ _ Hm)).
  unfold reduce_and_report, correlate. simpl. rewrite HT. simpl.
  split; [by eexists|done].
Qed.

Lemma temporal_derivative_core (data : ndarray2 F) (params : gmap string (pyval F))
      (report : gmap string (rval F)) (k : Z) :
  params !! "windowsize" = Some (PInt k) ->
  (1 <= shape0 data)%nat ->
  0 <= k <= Z.of_nat (shape0 data) ->
  exists R,
    temporal_derivative data params report
    = Ok (R, <["temporalderivative" := RDict {["windowsize" := PInt k]}]>
               (<["method" := RStr "temporalderivative"]> ∅))
    /\ Z.of_nat (dim2 R) = Z.of_nat (shape0 data) - k.
Proof.
  intros Hw HT Hk. unfold temporal_derivative.
  rewrite (getitem_Some _ _ _ Hw). simpl.
  destruct (Z.ltb_spec (Z.of_nat (shape0 data - 1) - k + 1) 0) as [|_]; [lia|].
  destruct (Z.ltb_spec k 0) as [|_]; [lia|]. simpl.
  eexists. split; [reflexivity|]. simpl. lia.
Qed.

(** X4. Under the temporal-derivative method [derive] returns the windowed
    coupling of [temporal_derivative] as it is: it is not reduced through a
    weight matrix and its sign is not changed; the report that reaches
    gen_report is the one [temporal_derivative] starts afresh. *)
Theorem derive_temporal_derivative (data : ndarray2 F) (params : gmap string (pyval F))
        (m : string) (k : Z) :
  params !! "method" = Some (PStr m) ->
  In m derivative_names ->
  params !! "windowsize" = Some (PInt k) ->
  (1 <= shape0 (time_by_node data params))%nat ->
  0 <= k <= Z.of_nat (shape0 (time_by_node data params)) ->
  no_postpro params ->
  analysis_id_is_str params ->
  exists R report,
    temporal_derivative (time_by_node data params) (defaults params) ∅ = Ok (R, report)
    /\ returned (derive data params) = Ok (PyArray R)
    /\ Z.of_nat (dim2 R) = Z.of_nat (shape0 (time_by_node data params)) - k
    /\ report = <["temporalderivative" := RDict {["windowsize" := PInt k]}]>
                  (<["method" := RStr "temporalderivative"]> ∅)
    /\ params_after (derive data params) = defaults params
    /\ (forall c, gen_report_call (derive data params) = Some c -> c.1 = report).
Proof.
  intros Hm Hin Hw HT Hk Hno Hid.
  destruct (temporal_derivative_core (time_by_node data params) (defaults params) ∅ k
              (lookup_defaults_Some _ _ _ Hw) HT Hk) as (R & Ht & Hdim).
  assert (Hd : dispatch (time_by_node data params) (defaults params) ∅
               = Ok (Coupling R, <["temporalderivative" := RDict {["windowsize" := PInt k]}]>
                                   (<["method" := RStr "temporalderivative"]> ∅),
                     defaults params)).
  { unfold dispatch. rewrite (getitem_Some _ _ _ (lookup_defaults_Some _ _ _ Hm)).
    unfold derivative_names in Hin. simpl in Hin.
    destruct Hin as [<-|[<-|[]]]; simpl; by rewrite Ht. }
  destruct (derive_after_dispatch data params _ _ _ (PStr m) R Hd eq_refl Hm Hno Hid)
    as (Hr & Hp & Hc).
  assert (Hj : eq_str (PStr m : pyval F) "jackknife" = false).
  { unfold derivative_names in Hin. simpl in Hin.
    by destruct Hin as [<-|[<-|[]]]. }
  rewrite Hj in Hr.
  eexists R, _. split; [exact Ht|]. split; [exact Hr|]. split; [exact Hdim|].
  split; [reflexivity|]. split; [exact Hp|exact Hc].
Qed.
End Through.

(** ** Window sizes at and beyond the edges *)

Section WindowEdges.
Context {F : Type} `{Float64 F} `{Externals F}.

Lemma dispatch_sliding (data : ndarray2 F) (params : gmap string (pyval F))
      (report : gmap string (rval F)) (m : string) :
  params !! "method" = Some (PStr m) -> In m sliding_names ->
  dispatch data params report
  = ('(weights, report, params) ← weightfun_sliding_window (shape0 data) params report;
     Ok (Weight weights, report, params)).
Proof.
  intros Hm Hin. unfold dispatch. rewrite (getitem_Some _ _ _ Hm).
  unfold sliding_names in Hin. simpl in Hin.
  by destruct Hin as [<-|[<-|[]]].
Qed.

Lemma dispatch_tapered (data : ndarray2 F) (params : gmap string (pyval F))
      (report : gmap string (rval F)) (m : string) :
  params !! "method" = Some (PStr m) -> In m tapered_names ->
  dispatch data params report
  = ('(weights, report, params) ←
       weightfun_tapered_sliding_window (shape0 data) params report;
     Ok (Weight weights, report, params)).
Proof.
  intros Hm Hin. unfold dispatch. rewrite (getitem_Some _ _ _ Hm).
  unfold tapered_names in Hin. simpl in Hin.
  by destruct Hin as [<-|[<-|[]]].
Qed.

(** X5. A window of size 0 is accepted: the sliding-window weight matrix then
    has T+1 rows, every entry of which is 0, and writes 'taper' as for any
    other size. *)
Theorem sliding_window_of_size_zero (T : nat) (params : gmap string (pyval F))
        (report : gmap string (rval F)) :
  params !! "windowsize" = Some (PInt 0) ->
  exists weights report',
    weightfun_sliding_window T params report
    = Ok (weights, report', <["taper" := PStr "untapered/uniform"]> params)
    /\ shape0 weights = S T /\ shape1 weights = T
    /\ forall i j, get2 weights i j = of_Z 0.
Proof.
  intros Hw. unfold weightfun_sliding_window. rewrite (getitem_Some _ _ _ Hw). simpl.
  unfold assign_prefix. rewrite slice_len_within by lia. simpl.
  eexists _, _. split; [reflexivity|]. simpl.
  split; [lia|]. split; [done|]. intros i j. reflexivity.
Qed.

(** X6. A window size that is negative raises ValueError, one that is not an
    int raises TypeError, and in both cases nothing is written into the
    dict: through [derive] it holds the defaults and no more. *)
Theorem sliding_window_bad_size (data : ndarray2 F) (params : gmap string (pyval F))
        (m : string) (v : pyval F) :
  params !! "method" = Some (PStr m) -> In m sliding_names ->
  params !! "windowsize" = Some v ->
  (forall k, v = PInt k -> k < 0) ->
  raises (returned (derive data params))
         (match v with PInt _ => "ValueError" | _ => "TypeError" end)
  /\ params_after (derive data params) = defaults params
  /\ gen_report_call (derive data params) = None.
Proof.
  intros Hm Hin Hw Hneg. rewrite derive_unfold. unfold derive_oriented.
  rewrite (dispatch_sliding _ _ _ _ (lookup_defaults_Some _ _ _ Hm) Hin).
  unfold weightfun_sliding_window.
  rewrite (getitem_Some _ _ _ (lookup_defaults_Some _ _ _ Hw)). simpl.
  destruct v as [s|k|a|a]; simpl; try (split; [by eexists|done]).
  destruct (Z.ltb_spec k 0) as [_|Hge]; [|specialize (Hneg k eq_refl); lia].
  simpl. split; [by eexists|done].
Qed.

(** X7. Through [derive], a sliding window of a size from 0 to T leaves
    'taper' = 'untapered/uniform' in the caller's dict, replacing whatever
    the caller had stored under that key, and the report that reaches
    gen_report names the method and refers to the caller's dict itself. *)
Theorem derive_sliding_window_writes_taper (data : ndarray2 F)
        (params : gmap string (pyval F)) (m : string) (k : Z) :
  params !! "method" = Some (PStr m) -> In m sliding_names ->
  params !! "windowsize" = Some (PInt k) ->
  0 <= k <= Z.of_nat (shape0 (time_by_node data params)) ->
  no_postpro params ->
  analysis_id_is_str params ->
  exists weights,
    returned (derive data params)
    = Ok (PyArray (pearson_tensor (time_by_node data params) weights))
    /\ Z.of_nat (shape0 weights) = Z.of_nat (shape0 (time_by_node data params)) - k + 1
    /\ params_after (derive data params)
       = <["taper" := PStr "untapered/uniform"]> (defaults params)
    /\ (forall c, gen_report_call (derive data params) = Some c ->
          c.1 = <["slidingwindow" := RParams]> (<["method" := RStr "slidingwindow"]> ∅)).
Proof.
  intros Hm Hin Hw Hk Hno Hid.
  set (data' := time_by_node data params) in *.
  assert (Hsw : exists weights,
    weightfun_sliding_window (shape0 data') (defaults params) ∅
    = Ok (weights, <["slidingwindow" := RParams]> (<["method" := RStr "slidingwindow"]> ∅),
          <["taper" := PStr "untapered/uniform"]> (defaults params))
    /\ shape0 weights = Z.to_nat (Z.of_nat (shape0 data') + 1 - k)).
  { unfold weightfun_sliding_window.
    rewrite (getitem_Some _ _ _ (lookup_defaults_Some _ _ _ Hw)). simpl.
    destruct (Z.ltb_spec k 0) as [|_]; [lia|]. simpl.
    unfold assign_prefix. rewrite slice_len_within by lia. simpl.
    rewrite Nat.eqb_refl. simpl. by eexists. }
  destruct Hsw as (weights & Hsw & Hrows).
  assert (Hd : dispatch data' (defaults params) ∅
               = Ok (Weight weights,
                     <["slidingwindow" := RParams]> (<["method" := RStr "slidingwindow"]> ∅),
                     <["taper" := PStr "untapered/uniform"]> (defaults params))).
  { rewrite (dispatch_sliding _ _ _ _ (lookup_defaults_Some _ _ _ Hm) Hin).
    by rewrite Hsw. }
  assert (Hne : shape0 weights <> 0%nat) by lia.
  destruct (derive_after_dispatch data params _ _ _ (PStr m) _ Hd
              (correlate_rows _ _ Hne) Hm Hno Hid) as (Hr & Hp & Hc).
  assert (Hj : eq_str (PStr m : pyval F) "jackknife" = false).
  { unfold sliding_names in Hin. simpl in Hin. by destruct Hin as [<-|[<-|[]]]. }
  rewrite Hj in Hr.
  exists weights. split; [exact Hr|]. split; [lia|]. split; [exact Hp|exact Hc].
Qed.

(** X8. The tapered window: when the distribution parameters can be iterated
    (line 208) and the density evaluates to a taper of the k window
    points, 1 <= k <= T, the weight matrix has T-k+1 rows of length
    T, row i carrying the taper at the entries i, ..., i+k-1 and 0
    elsewhere; the taper and its abscissa are stored in the caller's dict,
    and the report names the method 'slidingwindow'. *)
Theorem tapered_window_rows (T : nat) (k : Z) (params : gmap string (pyval F))
        (report : gmap string (rval F)) (dparams dname : pyval F) (taper : ndarray1 F) :
  1 <= k <= Z.of_nat T ->
  params !! "windowsize" = Some (PInt k) ->
  params !! "distribution_params" = Some dparams ->
  iterable dparams = Ok tt ->
  params !! "distribution" = Some dname ->
  scipy_pdf dparams dname (taper_window k) = Ok taper ->
  len1 taper = Z.to_nat k ->
  exists weights,
    weightfun_tapered_sliding_window T params report
    = Ok (weights,
          <["slidingwindow" := RParams]> (<["method" := RStr "slidingwindow"]> report),
          <["taper_window" := PVec (taper_window k)]> (<["taper" := PVec taper]> params))
    /\ len1 (taper_window (F:=F) k) = Z.to_nat k
    /\ shape0 weights = Z.to_nat (Z.of_nat T - k + 1)
    /\ shape1 weights = T
    /\ forall i j, (i < shape0 weights)%nat -> (j < T)%nat ->
         get2 weights i j =
           if Nat.leb i j && Nat.ltb j (i + Z.to_nat k)
           then get1 taper (j - i) else of_Z 0.
Proof.
  intros Hk Hw Hp Hit Hn Hpdf Hlen. unfold weightfun_tapered_sliding_window.
  rewrite (getitem_Some _ _ _ Hw). simpl.
  rewrite (getitem_Some _ _ _ Hp). simpl. rewrite Hit. simpl.
  rewrite (getitem_Some _ _ _ Hn). simpl.
  rewrite Hpdf. simpl.
  unfold assign_prefix. rewrite slice_len_within by lia. rewrite Hlen.
  rewrite Nat.eqb_refl. simpl.
  eexists. split; [reflexivity|]. simpl.
  split; [done|]. split; [f_equal; lia|]. split; [done|].
  intros i j Hi Hj.
  destruct (Nat.leb_spec i j) as [Hij|Hij]; simpl.
  - rewrite roll_index by lia.
    destruct (Nat.ltb_spec j (i + Z.to_nat k)) as [Hjk|Hjk];
      destruct (Nat.ltb_spec (j - i) (Z.to_nat k)); try lia; done.
  - rewrite roll_index_wrap by lia.
    destruct (Nat.ltb_spec (j + T - i) (Z.to_nat k)); [lia|done].
Qed.

(** X9. The temporal derivative at the edges of the window size, for T >= 1
    time points: a window of T, one more than the number of differences,
    is accepted and gives a tensor of depth 0; a larger or a negative
    window raises ValueError. *)
Theorem temporal_derivative_window_edges (data : ndarray2 F)
        (params : gmap string (pyval F)) (report : gmap string (rval F)) (k : Z) :
  params !! "windowsize" = Some (PInt k) ->
  (1 <= shape0 data)%nat ->
  (k = Z.of_nat (shape0 data) ->
   exists R report', temporal_derivative data params report = Ok (R, report')
                     /\ dim0 R = shape1 data /\ dim1 R = shape1 data
                     /\ dim2 R = 0%nat)
  /\ (k < 0 \/ Z.of_nat (shape0 data) < k ->
      raises (temporal_derivative data params report) "ValueError").
Proof.
  intros Hw HT. unfold temporal_derivative. rewrite (getitem_Some _ _ _ Hw). simpl.
  split.
  - intros ->.
    destruct (Z.ltb_spec (Z.of_nat (shape0 data - 1) - Z.of_nat (shape0 data) + 1) 0)
      as [|_]; [lia|].
    destruct (Z.ltb_spec (Z.of_nat (shape0 data)) 0) as [|_]; [lia|]. simpl.
    eexists _, _. split; [reflexivity|]. simpl. repeat split. lia.
  - intros Hk.
    destruct (Z.ltb_spec (Z.of_nat (shape0 data - 1) - k + 1) 0) as [|Hd];
      destruct (Z.ltb_spec k 0) as [|Hk0]; simpl; try (by eexists). lia.
Qed.
End WindowEdges.

(** ** Faults that raise and faults that pass *)

Section FaultsThrough.
Context {F : Type} `{Float64 F} `{Externals F}.







End FaultsThrough.

(** ** Symmetry *)

Section Symmetry.
Context {F : Type} `{Float64 F} `{Externals F}.

Lemma np_mean_ext (n : nat) (f g : nat -> F) :
  (forall s, f s = g s) -> np_mean (Arr1 n f) = np_mean (Arr1 n g).
Proof.
  intros Hfg. unfold np_mean, to_list1. simpl.
  by rewrite (map_ext f g Hfg).
Qed.

(** X10. The coupling tensor of the temporal derivative is symmetric in the two
    nodes wherever the float product commutes, as it does in IEEE-754
    arithmetic. *)
Theorem temporal_derivative_symmetric (data : ndarray2 F)
        (params : gmap string (pyval F)) (report report' : gmap string (rval F))
        (R : ndarray3 F) :
  (forall x y : F, fmul x y = fmul y x) ->
  temporal_derivative data params report = Ok (R, report') ->
  dim0 R = dim1 R /\ forall i j t, get3 R i j t = get3 R j i t.
Proof.
  intros Hcomm. unfold temporal_derivative.
  destruct (getitem params "windowsize") as [w|]; [|done]. simpl.
  destruct (as_int w) as [k|]; [|done]. simpl.
  destruct (_ || _); [done|]. intros [= <- _]. simpl.
  split; [done|]. intros i j t. apply np_mean_ext. intros s. apply Hcomm.
Qed.

(** X11. The distance weights are symmetric whenever the metric is symmetric on
    the time points of the data. *)
Theorem distance_weights_symmetric (data : ndarray2 F)
        (params : gmap string (pyval F)) (report report' : gmap string (rval F))
        (d : pyval F) (distance : ndarray1 F -> ndarray1 F -> F) (weights : ndarray2 F) :
  params !! "distance" = Some d ->
  getDistanceFunction d = Ok distance ->
  (forall n t, (n < shape0 data)%nat -> (t < shape0 data)%nat ->
               distance (row data n) (row data t) = distance (row data t) (row data n)) ->
  weightfun_spatial_distance data params report = Ok (weights, report') ->
  shape0 weights = shape1 weights
  /\ forall n t, (n < shape0 data)%nat -> (t < shape0 data)%nat ->
                 get2 weights n t = get2 weights t n.
Proof.
  intros Hd Hg Hsym. unfold weightfun_spatial_distance.
  rewrite (getitem_Some _ _ _ Hd). simpl. rewrite Hg. simpl.
  destruct (np_nanmin _) as [lo|]; [|done]. simpl.
  destruct (np_nanmax _) as [hi|]; [|done]. simpl.
  intros [= <- _]. simpl. split; [done|]. intros n t Hn Ht.
  rewrite (Nat.eqb_sym t n). destruct (Nat.eqb n t); [done|].
  by rewrite (Hsym n t Hn Ht).
Qed.

(** X12. The distance weights at the smallest inputs: with no time point the
    minimum has nothing to reduce and ValueError is raised; with a single
    time point the matrix is the 1 x 1 matrix holding 1. *)
Theorem distance_weights_small_inputs (data : ndarray2 F)
        (params : gmap string (pyval F)) (report : gmap string (rval F))
        (d : pyval F) (distance : ndarray1 F -> ndarray1 F -> F) :
  params !! "distance" = Some d ->
  getDistanceFunction d = Ok distance ->
  (shape0 data = 0%nat ->
   raises (weightfun_spatial_distance data params report) "ValueError")
  /\ (shape0 data = 1%nat ->
      exists weights,
        weightfun_spatial_distance data params report = Ok (weights, report)
        /\ to_list2 weights = [[of_Z 1]]).
Proof.
  intros Hd Hg. unfold weightfun_spatial_distance.
  rewrite (getitem_Some _ _ _ Hd). simpl. rewrite Hg. simpl.
  split; intros HT.
  - unfold np_nanmin, ravel, to_list2. simpl. rewrite HT. simpl. by eexists.
  - unfold np_nanmin, np_nanmax, ravel, to_list2. simpl. rewrite HT. simpl.
    eexists. split; [reflexivity|]. reflexivity.
Qed.
End Symmetry.

Lemma SFmul_comm (prec emax : Z) (x y : spec_float) :
  SFmul prec emax x y = SFmul prec emax y x.
Proof.
  destruct x as [sx|sx| |sx mx ex], y as [sy|sy| |sy my ey]; simpl;
    rewrite ?(xorb_comm sx sy); try reflexivity.
  by rewrite (Pos.mul_comm mx my), (Z.add_comm ex ey).
Qed.

(** ** Pascal's row *)

Section PascalShape.
Context {F : Type} `{Float64 F}.

Lemma pascal_loop_length (count : nat) :
  forall d (x : pynum F) m result,
    length (pascal_loop count d x m result) = (length result + count)%nat.
Proof.
  induction count as [|count IH]; intros d x m result; simpl; [lia|].
  rewrite IH, length_app. simpl. lia.
Qed.

Lemma pascal_loop_head (count : nat) :
  forall d (x : pynum F) m r0 result a,
    hd a (pascal_loop count d x m (r0 :: result)) = r0.
Proof.
  induction count as [|count IH]; intros d x m r0 result a; simpl; [done|].
  apply IH.
Qed.

Lemma land_one_parity (n : Z) : Z.land n 1 = n mod 2.
Proof. change 1 with (Z.ones 1). by rewrite Z.land_ones. Qed.

(** X14. [pascal_row(n)] for n >= 0 has n+1 entries, the first of which is the
    int 1, and reads the same in both directions, whatever the arithmetic. *)
Theorem pascal_row_shape (n : Z) :
  0 <= n ->
  length (pascal_row (F:=F) n) = S (Z.to_nat n)
  /\ hd (PyFloat nan) (pascal_row (F:=F) n) = PyInt 1
  /\ rev (pascal_row (F:=F) n) = pascal_row n.
Proof.
  intros Hn. unfold pascal_row.
  set (h := pascal_loop (Z.to_nat (n / 2)) 1 (PyInt 1) n [PyInt 1]).
  assert (Hlen : length h = S (Z.to_nat (n / 2))).
  { unfold h. rewrite pascal_loop_length. simpl. lia. }
  assert (Hhd : hd (PyFloat nan) h = PyInt 1).
  { unfold h. by rewrite pascal_loop_head. }
  clearbody h.
  destruct (exists_last (l:=h)) as (h' & a & Hh); [by destruct h|].
  rewrite land_one_parity.
  pose proof (Z.div_mod n 2 ltac:(lia)) as Hdm.
  pose proof (Z.mod_pos_bound n 2 ltac:(lia)) as Hmod.
  destruct (Z.eqb_spec (n mod 2) 0) as [Heven|Hodd].
  - rewrite Hh, removelast_last. rewrite Hh, length_app in Hlen. simpl in Hlen.
    split; [rewrite !length_app, length_rev; simpl; lia|]. split.
    + rewrite <- Hh. by destruct h.
    + rewrite !rev_app_distr, rev_involutive. simpl. by rewrite <- app_assoc.
  - split; [rewrite length_app, length_rev; lia|]. split.
    + by destruct h.
    + by rewrite rev_app_distr, rev_involutive.
Qed.
End PascalShape.

(** ** Binomial coefficients *)

Lemma choose_0_r (n : nat) : choose n 0 = 1%nat.
Proof. by destruct n. Qed.

Lemma choose_above (n : nat) : forall k, (n < k)%nat -> choose n k = 0%nat.
Proof.
  induction n as [|n IH]; intros [|k] Hk; simpl; try lia.
  rewrite !IH by lia. done.
Qed.

Lemma choose_diag (n : nat) : choose n n = 1%nat.
Proof.
  induction n as [|n IH]; simpl; [done|].
  rewrite IH, choose_above by lia. done.
Qed.

(** The absorption rule that [pascal_row] iterates. *)
Lemma choose_absorb (n : nat) :
  forall k, (S k * choose n (S k) = (n - k) * choose n k)%nat.
Proof.
  induction n as [|n IH]; intros k; [simpl; lia|].
  destruct k as [|k].
  - pose proof (IH 0%nat) as IH0.
    change (choose (S n) 1) with (choose n 0 + choose n 1)%nat.
    rewrite !choose_0_r in *. lia.
  - change (choose (S n) (S (S k))) with (choose n (S k) + choose n (S (S k)))%nat.
    change (choose (S n) (S k)) with (choose n k + choose n (S k))%nat.
    pose proof (IH k) as IHk. pose proof (IH (S k)) as IHk'.
    destruct (Nat.le_gt_cases n k) as [Hle|Hgt].
    + rewrite (choose_above n (S k)), (choose_above n (S (S k))) by lia. lia.
    + replace (S n - S k)%nat with (S (n - S k)) by lia.
      replace (n - k)%nat with (S (n - S k)) in IHk by lia. nia.
Qed.

Lemma choose_symmetric (n : nat) :
  forall k, (k <= n)%nat -> choose n (n - k) = choose n k.
Proof.
  induction n as [|n IH]; intros k Hk.
  - by replace k with 0%nat by lia.
  - destruct k as [|k].
    + rewrite Nat.sub_0_r, choose_diag. done.
    + destruct (Nat.eq_dec k n) as [->|Hne].
      * rewrite Nat.sub_diag, choose_diag. done.
      * replace (S n - S k)%nat with (S (n - S k)) by lia.
        change (choose (S n) (S (n - S k)))
          with (choose n (n - S k) + choose n (S (n - S k)))%nat.
        change (choose (S n) (S k)) with (choose n k + choose n (S k))%nat.
        replace (S (n - S k)) with (n - k)%nat by lia.
        rewrite !IH by lia. lia.
Qed.

Lemma choose_quotient_choose (n k : nat) :
  choose_quotient (Z.of_nat n) k = Z.of_nat (choose n k).
Proof.
  induction k as [|k IH]; simpl choose_quotient; [by destruct n|].
  rewrite IH. pose proof (choose_absorb n k) as Ha.
  destruct (Nat.le_gt_cases n k) as [Hle|Hgt].
  - rewrite (choose_above n (S k)) by lia.
    assert (Hz : Z.of_nat (choose n k) * (Z.of_nat n - Z.of_nat k) = 0).
    { destruct (Nat.eq_dec n k) as [->|Hne]; [lia|].
      rewrite (choose_above n k) by lia. lia. }
    rewrite Hz. done.
  - replace (Z.of_nat (choose n k) * (Z.of_nat n - Z.of_nat k))
      with (Z.of_nat (choose n (S k)) * Z.of_nat (S k)) by nia.
    rewrite Z.div_mul by lia. done.
Qed.

(** ** Pascal's row in exact arithmetic *)

Section PascalExact.
Import Exact.

Lemma Qred_integer (z : Z) : Qred (inject_Z z) = inject_Z z.
Proof.
  unfold Qred, inject_Z. simpl.
  pose proof (Z.ggcd_gcd z 1) as Hg.
  pose proof (Z.ggcd_correct_divisors z 1) as Hd.
  destruct (Z.ggcd z 1) as [g [a b]]. simpl in *.
  rewrite Z.gcd_1_r in Hg. subst g. destruct Hd as [Ha Hb].
  replace a with z by lia. replace b with 1 by lia. done.
Qed.

Lemma exact_mul_int (x : pynum xq) (c i : Z) :
  py_float x = of_Z c -> py_float (py_mul_int x i) = of_Z (c * i).
Proof.
  destruct x as [z|q]; simpl.
  - intros [= ->]. done.
  - intros ->. simpl. f_equal.
    rewrite <- (Qred_integer (c * i)). apply Qred_complete.
    unfold inject_Z, Qeq. simpl. lia.
Qed.

Lemma exact_div_int (x : pynum xq) (c d : Z) :
  0 < d -> py_float x = of_Z (c * d) -> py_float (py_truediv_int x d) = of_Z c.
Proof.
  intros Hd Hx. unfold py_truediv_int. simpl. rewrite Hx. simpl.
  destruct (Qeq_bool (inject_Z d) 0) eqn:E.
  - apply Qeq_bool_iff in E. unfold inject_Z, Qeq in E. simpl in E. lia.
  - f_equal. rewrite <- (Qred_integer c). apply Qred_complete.
    destruct d as [|p|p]; try lia.
    unfold inject_Z, Qeq, Qdiv, Qmult, Qinv. simpl. lia.
Qed.

Lemma pascal_loop_exact (n : nat) (count : nat) :
  forall (k : nat) (x : pynum xq) result,
    py_float x = of_Z (Z.of_nat (choose n k)) ->
    map py_float result = map (fun i => of_Z (Z.of_nat (choose n i))) (seq 0 (S k)) ->
    map py_float (pascal_loop count (Z.of_nat (S k)) x (Z.of_nat n - Z.of_nat k) result)
    = map (fun i => of_Z (Z.of_nat (choose n i))) (seq 0 (S k + count)).
Proof.
  induction count as [|count IH]; intros k x result Hx Hres.
  - simpl pascal_loop. by rewrite Nat.add_0_r.
  - simpl pascal_loop.
    assert (Hstep : py_float (py_truediv_int
                                (py_mul_int x (Z.of_nat n - Z.of_nat k)) (Z.of_nat (S k)))
                    = of_Z (Z.of_nat (choose n (S k)))).
    { apply exact_div_int; [lia|].
      rewrite (exact_mul_int x _ _ Hx). f_equal.
      pose proof (choose_absorb n k) as Ha.
      destruct (Nat.le_gt_cases n k) as [Hle|Hgt].
      - rewrite (choose_above n (S k)) by lia.
        destruct (Nat.eq_dec n k) as [->|Hne]; [lia|].
        rewrite (choose_above n k) by lia. lia.
      - nia. }
    replace (Z.of_nat (S k) + 1) with (Z.of_nat (S (S k))) by lia.
    replace (Z.of_nat n - Z.of_nat k - 1) with (Z.of_nat n - Z.of_nat (S k)) by lia.
    replace (S k + S count)%nat with (S (S k) + count)%nat by lia.
    rewrite (IH (S k)); [done|exact Hstep|].
    rewrite map_app, Hres. cbn [map]. rewrite Hstep.
    replace (S (S k)) with (S k + 1)%nat by lia.
    rewrite (seq_app (S k) 1 0), map_app. done.
Qed.

(** X15. Where no rounding occurs, entry k of [pascal_row(n)] is the binomial
    coefficient of n and k, the entry of Pascal's triangle. *)
Theorem pascal_row_exact (n k : nat) :
  (k <= n)%nat ->
  nth k (map py_float (pascal_row (F:=xq) (Z.of_nat n))) nan
  = of_Z (Z.of_nat (choose n k)).
Proof.
  intros Hk.
  destruct (pascal_row_shape (F:=xq) (Z.of_nat n)) as (Hlen & _ & Hrev); [lia|].
  set (L := map py_float (pascal_row (F:=xq) (Z.of_nat n))).
  assert (HlenL : length L = S n) by (unfold L; rewrite length_map, Hlen; lia).
  assert (HrevL : rev L = L) by (unfold L; by rewrite <- map_rev, Hrev).
  assert (Hlow : forall i, (i <= Z.to_nat (Z.of_nat n / 2))%nat ->
                           nth i L nan = of_Z (Z.of_nat (choose n i))).
  { intros i Hi. unfold L, pascal_row.
    assert (H1 : py_float (PyInt 1 : pynum xq) = of_Z (Z.of_nat (choose n 0)))
      by (by rewrite choose_0_r).
    assert (H2 : map py_float [PyInt 1 : pynum xq]
                 = map (fun i => of_Z (Z.of_nat (choose n i))) (seq 0 1))
      by (simpl; by rewrite choose_0_r).
    pose proof (pascal_loop_exact n (Z.to_nat (Z.of_nat n / 2)) 0 (PyInt 1) [PyInt 1]
                  H1 H2) as Hh.
    simpl Z.of_nat in Hh. rewrite Z.sub_0_r in Hh.
    set (h := pascal_loop _ _ _ _ _) in *.
    assert (Hnth : nth i (map py_float h) nan = of_Z (Z.of_nat (choose n i))).
    { rewrite Hh.
      rewrite (nth_indep _ nan (of_Z (Z.of_nat (choose n 0))))
        by (rewrite length_map, length_seq; lia).
      rewrite (map_nth (fun i => of_Z (Z.of_nat (choose n i)))), seq_nth by lia. done. }
    assert (Hil : (i < length (map py_float h))%nat).
    { rewrite Hh, length_map, length_seq. lia. }
    destruct (Z.land (Z.of_nat n) 1 =? 0); rewrite map_app, app_nth1; done. }
  pose proof (Z.div_mod (Z.of_nat n) 2 ltac:(lia)) as Hdm.
  pose proof (Z.mod_pos_bound (Z.of_nat n) 2 ltac:(lia)) as Hmod.
  destruct (Nat.le_gt_cases k (Z.to_nat (Z.of_nat n / 2))) as [Hle|Hgt].
  - by apply Hlow.
  - rewrite <- HrevL, rev_nth by lia. rewrite HlenL.
    replace (S n - S k)%nat with (n - k)%nat by lia.
    rewrite Hlow by lia. by rewrite choose_symmetric.
Qed.
End PascalExact.

(** X16. In IEEE-754 binary64 every row up to n = 54 consists of the binomial
    coefficients exactly. *)
Theorem pascal_row_binary64 (n k : nat) :
  (n <= 54)%nat -> (k <= n)%nat ->
  nth k (map py_float (pascal_row (F:=spec_float) (Z.of_nat n))) nan
  = of_Z (Z.of_nat (choose n k)).
Proof.
  intros Hn Hk. rewrite <- choose_quotient_choose.
  assert (Hall :
    forallb (fun n =>
      forallb (fun k =>
        bool_decide
          (nth k (map py_float (pascal_row (F:=spec_float) (Z.of_nat n))) nan
           = of_Z (choose_quotient (Z.of_nat n) k)))
        (seq 0 (S n))) (seq 0 55) = true) by (vm_compute; reflexivity).
  rewrite forallb_forall in Hall.
  specialize (Hall n ltac:(apply in_seq; lia)).
  rewrite forallb_forall in Hall.
  specialize (Hall k ltac:(apply in_seq; lia)).
  by apply bool_decide_eq_true in Hall.
Qed.

(** In row 55 rounding makes the middle entry differ from the binomial
    coefficient. *)
Lemma pascal_row_binary64_limit :
  exists k, (k <= 55)%nat
            /\ nth k (map py_float (pascal_row (F:=spec_float) 55)) nan
               <> of_Z (Z.of_nat (choose 55 k)).
Proof.
  exists 27%nat. split; [lia|].
  change 55 with (Z.of_nat 55). rewrite <- choose_quotient_choose.
  vm_compute. discriminate.
Qed.

(** ** The edge list of a tensor *)

Section EdgeList.
Context {F : Type} `{Float64 F}.

Lemma in_indices3 (A : ndarray3 F) (i j t : nat) :
  In (i, j, t) (indices3 A) <-> (i < dim0 A /\ j < dim1 A /\ t < dim2 A)%nat.
Proof.
  unfold indices3. rewrite in_flat_map. split.
  - intros (i' & Hi & Hin). apply in_flat_map in Hin as (j' & Hj & Hin).
    apply in_map_iff in Hin as (t' & [= -> -> ->] & Ht).
    apply in_seq in Hi, Hj, Ht. lia.
  - intros (Hi & Hj & Ht). exists i. split; [apply in_seq; lia|].
    apply in_flat_map. exists j. split; [apply in_seq; lia|].
    apply in_map_iff. exists t. split; [done|apply in_seq; lia].
Qed.

Lemma NoDup_map_in {A B : Type} (f : A -> B) (l : list A) :
  (forall x y, In x l -> In y l -> f x = f y -> x = y) ->
  List.NoDup l -> List.NoDup (map f l).
Proof.
  intros Hinj Hl. induction Hl as [|x l Hx Hl IH]; simpl; constructor.
  - rewrite in_map_iff. intros (y & E & Hy).
    apply Hinj in E; [by subst|by right|by left].
  - apply IH. intros a b Ha Hb. apply Hinj; by right.
Qed.

Lemma NoDup_flat_map {A B : Type} (f : A -> list B) (l : list A) :
  List.NoDup l -> (forall x, In x l -> List.NoDup (f x)) ->
  (forall x y z, In x l -> In y l -> In z (f x) -> In z (f y) -> x = y) ->
  List.NoDup (flat_map f l).
Proof.
  induction 1 as [|x l Hx Hl IH]; intros Hf Hdis; simpl; [constructor|].
  apply List.NoDup_app.
  - apply Hf. by left.
  - apply IH; [intros; apply Hf; by right|].
    intros a b z Ha Hb. apply Hdis; by right.
  - intros z Hz Hz'. apply in_flat_map in Hz' as (y & Hy & Hz').
    apply Hx. by rewrite (Hdis x y z (or_introl eq_refl) (or_intror Hy) Hz Hz').
Qed.

Lemma NoDup_indices3 (A : ndarray3 F) : List.NoDup (indices3 A).
Proof.
  unfold indices3. apply NoDup_flat_map; [apply List.seq_NoDup| |].
  - intros i _. apply NoDup_flat_map; [apply List.seq_NoDup| |].
    + intros j _. apply NoDup_map_in; [by intros ?? _ _ [= ->]|apply List.seq_NoDup].
    + intros j j' [[i' j''] t] _ _ Hj Hj'.
      apply in_map_iff in Hj as (? & [= _ -> _] & _).
      by apply in_map_iff in Hj' as (? & [= _ -> _] & _).
  - intros i i' [[i'' j] t] _ _ Hi Hi'.
    apply in_flat_map in Hi as (? & _ & Hi). apply in_map_iff in Hi as (? & [= -> _ _] & _).
    apply in_flat_map in Hi' as (? & _ & Hi').
    by apply in_map_iff in Hi' as (? & [= -> _ _] & _).
Qed.

Lemma in_edge_list (A : ndarray3 F) (gtth : F) (a b : nat) :
  dim0 A = dim1 A ->
  In (a, b) (edgeListFromMatrix A gtth) <->
  exists i j t, (i < dim0 A /\ j < dim0 A /\ t < dim2 A)%nat
                /\ fgt (get3 A i j t) gtth = true
                /\ a = (i + t * dim0 A)%nat /\ b = (j + t * dim0 A)%nat.
Proof.
  intros Hsq. unfold edgeListFromMatrix, np_where3.
  rewrite in_map_iff. split.
  - intros ([[i j] t] & [= <- <-] & Hf). apply filter_In in Hf as [Hi Hgt].
    apply in_indices3 in Hi. exists i, j, t. rewrite <- Hsq in Hi. done.
  - intros (i & j & t & Hr & Hgt & -> & ->). exists (i, j, t). split; [done|].
    apply filter_In. split; [|done]. apply in_indices3. rewrite <- Hsq. done.
Qed.

Lemma shifted_index (V i t : nat) :
  (i < V)%nat -> ((i + t * V) / V = t /\ (i + t * V) mod V = i)%nat.
Proof.
  intros Hi. split.
  - rewrite Nat.div_add by lia. rewrite Nat.div_small by lia. done.
  - rewrite Nat.Div0.mod_add. by apply Nat.mod_small.
Qed.

(** X17. On a tensor of V x V slices, [edgeListFromMatrix] lists each entry
    above the threshold once, as the pair of its two node indices shifted
    by V times its slice index: a pair is in the list exactly if both its
    ends fall in the same slice t and the entry they point to in slice t is
    above the threshold. *)
Theorem edge_list_decodes (A : ndarray3 F) (gtth : F) :
  dim0 A = dim1 A ->
  List.NoDup (edgeListFromMatrix A gtth)
  /\ (forall a b,
        In (a, b) (edgeListFromMatrix A gtth) <->
        dim0 A <> 0
        /\ a / dim0 A = b / dim0 A
        /\ a / dim0 A < dim2 A
        /\ fgt (get3 A (a mod dim0 A) (b mod dim0 A) (a / dim0 A)) gtth = true)%nat.
Proof.
  intros Hsq. split.
  - unfold edgeListFromMatrix, np_where3.
    apply NoDup_map_in.
    + intros [[i j] t] [[i' j'] t'] Hx Hy [= Ha Hb].
      apply filter_In in Hx as [Hx _].
      apply filter_In in Hy as [Hy _].
      apply in_indices3 in Hx, Hy. rewrite <- Hsq in Hx, Hy.
      destruct (shifted_index (dim0 A) i t) as [Ht Hi]; [lia|].
      destruct (shifted_index (dim0 A) i' t') as [Ht' Hi']; [lia|].
      destruct (shifted_index (dim0 A) j t) as [_ Hj]; [lia|].
      destruct (shifted_index (dim0 A) j' t') as [_ Hj']; [lia|].
      rewrite Ha in Ht, Hi. rewrite Hb in Hj.
      rewrite <- Ht, <- Hi, <- Hj. by rewrite Ht', Hi', Hj'.
    + apply List.NoDup_filter, NoDup_indices3.
  - intros a b. rewrite (in_edge_list A gtth a b Hsq). split.
    + intros (i & j & t & (Hi & Hj & Ht) & Hgt & -> & ->).
      destruct (shifted_index _ i t Hi) as [-> ->].
      destruct (shifted_index _ j t Hj) as [-> ->].
      split; [lia|]. done.
    + intros (HV & Hab & Ht & Hgt).
      exists (a mod dim0 A)%nat, (b mod dim0 A)%nat, (a / dim0 A)%nat.
      pose proof (Nat.mod_upper_bound a _ HV). pose proof (Nat.mod_upper_bound b _ HV).
      split; [lia|]. split; [done|].
      pose proof (Nat.div_mod_eq a (dim0 A)). pose proof (Nat.div_mod_eq b (dim0 A)).
      rewrite <- Hab in *. split; lia.
Qed.

(** X18. A NaN entry never gives an edge, comparisons with NaN being false. *)
Theorem edge_list_skips_nan (A : ndarray3 F) (gtth : F) (i j t : nat) :
  (forall x y : F, fle x y = true -> isnan x = false /\ isnan y = false) ->
  dim0 A = dim1 A ->
  (i < dim0 A)%nat -> (j < dim0 A)%nat ->
  isnan (get3 A i j t) = true ->
  ~ In (i + t * dim0 A, j + t * dim0 A)%nat (edgeListFromMatrix A gtth).
Proof.
  intros Hle Hsq Hi Hj Hnan Hcon.
  apply (in_edge_list A gtth _ _ Hsq) in Hcon
    as (i' & j' & t' & (Hi' & Hj' & Ht') & Hgt & Ha & Hb).
  destruct (shifted_index _ i t Hi) as [Ht1 Hi1].
  destruct (shifted_index _ i' t' Hi') as [Ht2 Hi2].
  destruct (shifted_index _ j t Hj) as [_ Hj1].
  destruct (shifted_index _ j' t' Hj') as [_ Hj2].
  rewrite Ha in Ht1, Hi1. rewrite Hb in Hj1.
  assert (i' = i) by (by rewrite <- Hi2, Hi1).
  assert (j' = j) by (by rewrite <- Hj2, Hj1).
  assert (t' = t) by (by rewrite <- Ht2, Ht1). subst.
  unfold fgt in Hgt. apply andb_true_iff in Hgt as [Hgt _].
  apply Hle in Hgt as [_ Hgt]. congruence.
Qed.
End EdgeList.

(** ** The history of a TenetoBIDS object *)

Lemma add_history_entry (self : TenetoBIDS) (fname : string)
      (fargs : gmap string argval) (init : Z) :
  history (add_history self fname fargs init)
  = ((if init =? 1 then [] else history self) ++ [(fname, delete "self" fargs)])%list
  /\ (delete "self" fargs : gmap string argval) !! "self" = None.
Proof. split; [done|apply lookup_delete_eq]. Qed.

Lemma run_call_history (self : TenetoBIDS) (c : setter_call) :
  history (run_call self c) = [recorded c].
Proof.
  destruct c as [s|d]; simpl; f_equal; f_equal; apply map_eq; intros k;
    rewrite lookup_delete, !lookup_insert; repeat case_decide; subst; done.
Qed.

Lemma last_cons_default {A : Type} (l : list A) :
  forall a d, List.last (a :: l) d = List.last l a.
Proof.
  induction l as [|b l IH]; intros a d; [done|].
  change (List.last (a :: b :: l) d) with (List.last (b :: l) d).
  rewrite (IH b d), (IH b a). done.
Qed.

Lemma run_calls_fields (calls : list setter_call) :
  forall self,
    bids_suffix (fold_left run_call calls self)
    = List.last (omap (fun c => match c with SetBidsSuffix s => Some s | _ => None end)
                      calls) (bids_suffix self)
    /\ pipeline_subdir (fold_left run_call calls self)
       = List.last (omap (fun c => match c with SetPipelineSubdir d => Some d | _ => None end)
                         calls) (pipeline_subdir self).
Proof.
  induction calls as [|c calls IH]; intros self; [done|].
  simpl fold_left. destruct (IH (run_call self c)) as [IHb IHp].
  rewrite IHb, IHp. destruct c as [s|d].
  - split; [|done].
    change (omap _ (SetBidsSuffix s :: calls))
      with (s :: omap (fun c => match c with SetBidsSuffix s => Some s | _ => None end)
                      calls).
    by rewrite last_cons_default.
  - split; [done|].
    change (omap _ (SetPipelineSubdir d :: calls))
      with (d :: omap (fun c => match c with SetPipelineSubdir d => Some d | _ => None end)
                      calls).
    by rewrite last_cons_default.
Qed.

(** X19. Each setter records itself with [init] = 1, which empties the history
    first: after any sequence of calls of [set_bids_suffix] and
    [set_pipeline_subdir] the history holds the last call alone, with its
    arguments and without self, whatever it held before; the fields hold
    the last value given to each. *)
Theorem history_holds_last_call_only (self : TenetoBIDS) (calls : list setter_call)
        (c : setter_call) :
  let self' := fold_left run_call (calls ++ [c])%list self in
  history self' = [recorded c]
  /\ (recorded c).2 !! "self" = None
  /\ bids_suffix self'
     = List.last (omap (fun c => match c with SetBidsSuffix s => Some s | _ => None end)
                  (calls ++ [c])%list) (bids_suffix self)
  /\ pipeline_subdir self'
     = List.last (omap (fun c => match c with SetPipelineSubdir d => Some d | _ => None end)
                  (calls ++ [c])%list) (pipeline_subdir self).
Proof.
  intros self'. split; [|split; [by destruct c|apply run_calls_fields]].
  unfold self'. rewrite fold_left_app. apply run_call_history.
Qed.

(** ** Runs on the sample inputs *)

(** Jackknife on five time points: the 5 x 5 weight matrix and the negated
    tensor. *)
Lemma jackknife_sign_inverted_once_witness :
  shape0 (weightfun_jackknife (F:=spec_float) 5 ∅).1 = 5%nat
  /\ returned (derive five_by_two jackknife_config)
     = Ok (PyArray (negate (pearson_tensor five_by_two
                                           (weightfun_jackknife 5 ∅).1))).
Proof.
  assert (Hm : jackknife_config !! "method" = Some (PStr "jackknife")) by reflexivity.
  assert (HT : shape0 (time_by_node five_by_two jackknife_config) <> 0%nat)
    by (vm_compute; lia).
  assert (Hid : analysis_id_is_str jackknife_config)
    by (intros v Hv; vm_compute in Hv; discriminate Hv).
  destruct (jackknife_sign_inverted_once five_by_two jackknife_config Hm HT Hid)
    as ((Hs & _) & _ & Hret & _).
  split; [exact Hs|]. apply Hret. left. reflexivity.
Defined.

(** Sliding window with T = 10 and k = 3: eight rows, the ones of row 2 at
    the indices 2, 3 and 4. *)
Lemma sliding_window_rows_witness :
  exists weights report' params',
    weightfun_sliding_window (F:=spec_float) 10 (window_config 3) ∅
    = Ok (weights, report', params')
    /\ shape0 weights = 8%nat
    /\ to_list1 (row weights 2)
       = map f64 [0; 0; 1; 1; 1; 0; 0; 0; 0; 0].
Proof.
  destruct (sliding_window_rows (F:=spec_float) 10 3 (window_config 3) ∅)
    as (w & r & p & Heq & Hs0 & Hs1 & _ & Hrow); [lia|reflexivity|].
  exists w, r, p. split; [exact Heq|]. split; [exact Hs0|].
  unfold to_list1, row. rewrite Hs1. simpl.
  rewrite !(fun j Hj => proj2 (Hrow 2%nat j ltac:(rewrite Hs0; simpl; lia) Hj)) by lia.
  reflexivity.
Defined.

(** C3 as stated fails: on one node rising 0, 1, 3 the differences 1 and 2
    have mean 3/2 and standard deviation 1/2; the code scales them to 2 and
    4 and returns the products 4 and 16 for a window of 1, where the
    z-scores -1 and 1 would give 1 and 1. *)
Lemma derivative_scales_without_centring :
  match temporal_derivative ramp (derivative_config 1) ∅ with
  | Ok (R, _) =>
      to_list1 (col (differences ramp) 0) = [f64 1; f64 2]
      /\ np_mean (col (differences ramp) 0) = fdiv (f64 3) (f64 2)
      /\ np_std 0 (col (differences ramp) 0) = fdiv (f64 1) (f64 2)
      /\ map (zscore (col (differences ramp) 0)) [0; 1]%nat = [f64 (-1); f64 1]
      /\ map (zscore_coupling ramp 1 0 0) [0; 1]%nat = [f64 1; f64 1]
      /\ to_list3 R = [[[f64 4; f64 16]]]
      /\ get3 R 0 0 0 <> zscore_coupling ramp 1 0 0 0
  | Raise _ => False
  end.
Proof. vm_compute. repeat split; try reflexivity. discriminate. Qed.

(** T = 100 and k = 7 give depth 93. *)
Lemma temporal_derivative_shape_witness :
  exists R report',
    temporal_derivative (F:=spec_float) hundred_by_two (window_config 7) ∅ = Ok (R, report')
    /\ dim0 R = 2%nat /\ dim1 R = 2%nat /\ dim2 R = 93%nat.
Proof.
  destruct (temporal_derivative_shape (F:=spec_float) hundred_by_two (window_config 7) ∅ 7)
    as (R & r & sd & Heq & _ & _ & _ & H0 & H1 & H2 & _);
    [reflexivity|simpl; lia|simpl; lia|].
  exists R, r. split; [exact Heq|]. split; [exact H0|]. split; [exact H1|].
  simpl in H2. lia.
Defined.

(** Three time points of two nodes: the distance weights are 3 x 3. *)
Lemma distance_weights_over_time_witness :
  exists weights,
    shape1 three_by_two = 2%nat
    /\ shape0 weights = 3%nat /\ shape1 weights = 3%nat
    /\ returned (derive three_by_two euclidean_config)
       = Ok (PyArray (pearson_tensor three_by_two weights)).
Proof.
  destruct (distance_weights_over_time (F:=spec_float) three_by_two euclidean_config
              "distance" (PStr "euclidean") euclidean)
    as (w & lo & hi & _ & H0 & H1 & _ & _ & Hret & _).
  - reflexivity.
  - simpl. tauto.
  - reflexivity.
  - reflexivity.
  - vm_compute. lia.
  - left. reflexivity.
  - intros v Hv. vm_compute in Hv. discriminate Hv.
  - exists w. split; [reflexivity|]. split; [exact H0|]. split; [exact H1|]. exact Hret.
Defined.

(** C4 as stated fails: on three time points of two nodes the distance
    weight matrix is 3 x 3, one row per time point, not 2 x 2. *)
Lemma distance_weights_time_indexed :
  match weightfun_spatial_distance three_by_two euclidean_config ∅ with
  | Ok (weights, _) =>
      shape1 three_by_two = 2%nat
      /\ shape0 weights = 3%nat /\ shape1 weights = 3%nat
      /\ (shape0 weights, shape1 weights) <> (shape1 three_by_two, shape1 three_by_two)
  | Raise _ => False
  end.
Proof. vm_compute. repeat split. discriminate. Qed.





(** The jackknife run returns an array. *)
Lemma derive_returns_tensor_alone_witness :
  exists R, returned (derive five_by_two jackknife_config) = Ok (PyArray R).
Proof.
  assert (E : exists out, returned (derive five_by_two jackknife_config) = Ok out).
  { eexists. reflexivity. }
  destruct E as [out E].
  destruct (derive_returns_tensor_alone five_by_two jackknife_config out E)
    as [[R ->] _].
  exists R. exact E.
Defined.



(** The jackknife on two mirrored nodes followed by the Fisher step: the
    correlations are exactly -1 and 1, the pipeline sends them to the two
    infinities, and the tensor that [derive] returns holds 0 in their
    place. *)
Lemma infinities_zeroed_witness :
  let Rin := negate (pearson_tensor mirrored (weightfun_jackknife 3 ∅).1) in
  exists R R' report',
    to_list3 Rin = [[[f64 (-1); f64 (-1); f64 (-1)]; [f64 1; f64 1; f64 1]];
                    [[f64 1; f64 1; f64 1]; [f64 (-1); f64 (-1); f64 (-1)]]]
    /\ postpro_pipeline Rin (PStr "fisher") ∅ = Ok (R', report')
    /\ get3 R' 0 0 0 = S754_infinity true /\ get3 R' 0 1 0 = S754_infinity false
    /\ forallb (forallb (forallb isinf)) (to_list3 R') = true
    /\ returned (derive mirrored fisher_config) = Ok (PyArray R)
    /\ get3 R 0 0 0 = f64 0 /\ get3 R 0 1 0 = f64 0
    /\ (forall i j t, isinf (get3 R i j t) = false).
Proof.
  intros Rin.
  assert (E : returned (derive mirrored fisher_config)
              = Ok (PyArray (zero_infinities (postpro_fisher Rin)))) by reflexivity.
  destruct (infinities_zeroed mirrored fisher_config (PStr "fisher") _ eq_refl eq_refl E)
    as (R & R' & Rin' & r & r' & Hout & _ & _ & Hfin).
  injection Hout as <-.
  exists (zero_infinities (postpro_fisher Rin)), (postpro_fisher Rin).
  eexists.
  split; [vm_compute; reflexivity|]. split; [reflexivity|].
  split; [vm_compute; reflexivity|]. split; [vm_compute; reflexivity|].
  split; [vm_compute; reflexivity|]. split; [exact E|].
  split; [vm_compute; reflexivity|]. split; [vm_compute; reflexivity|].
  exact Hfin.
Defined.

(** A misspelt orientation is taken as time x node; 'node,time' transposes. *)
Lemma dimord_not_validated_witness :
  derive three_by_two misspelt_dimord_config
  = derive_oriented three_by_two (defaults misspelt_dimord_config)
  /\ derive three_by_two node_time_config
     = derive_oriented (transpose three_by_two) (defaults node_time_config).
Proof.
  split.
  - apply (proj1 (dimord_not_validated three_by_two misspelt_dimord_config)).
    intros Hd. vm_compute in Hd. discriminate Hd.
  - apply (proj2 (dimord_not_validated three_by_two node_time_config)). reflexivity.
Defined.

(** The same weights entry by entry: neighbours at distance 5 get 1, the
    pair at distance 10 gets 0. *)
Lemma distance_weights_exact_example :
  match weightfun_spatial_distance three_by_two_exact euclidean_config ∅ with
  | Ok (weights, _) =>
      to_list2 weights
      = map (map (fun z => of_Z z)) [[1; 1; 0]; [1; 1; 1]; [0; 1; 1]]
  | Raise _ => False
  end.
Proof. vm_compute. reflexivity. Qed.

(** Zeroing the infinities of a literal tensor: +inf and -inf become 0, a
    finite entry is kept. *)
Lemma zero_infinities_example :
  to_list3 (zero_infinities
              (Arr3 1 1 3 (fun _ _ t => nth t [S754_infinity false; S754_infinity true;
                                               f64 1] S754_nan)))
  = [[[f64 0; f64 0; f64 1]]].
Proof. reflexivity. Qed.

(** ** Further runs on the sample inputs *)

(** A literal leave-one-out matrix on three time points. *)
Lemma derive_literal_weights_witness :
  returned (derive three_by_two literal_config)
  = Ok (PyArray (pearson_tensor three_by_two
                                (matrix_of [[0; 1; 1]; [1; 0; 1]; [1; 1; 0]])))
  /\ params_after (derive three_by_two literal_config) = defaults literal_config.
Proof.
  destruct (derive_literal_weights three_by_two literal_config
              (matrix_of [[0; 1; 1]; [1; 0; 1]; [1; 1; 0]]))
    as (Hr & _ & Hp & _).
  - reflexivity.
  - reflexivity.
  - reflexivity.
  - change (3 <> 0)%nat. lia.
  - left. reflexivity.
  - intros v Hv. vm_compute in Hv. discriminate Hv.
  - split; [exact Hr|exact Hp].
Defined.

(** The jackknife on no time point. *)
Lemma derive_jackknife_no_time_points_witness :
  raises (returned (derive no_time_point jackknife_config)) "ValueError".
Proof.
  apply (derive_jackknife_no_time_points no_time_point jackknife_config); reflexivity.
Defined.

(** The temporal derivative through [derive], five time points, window 2. *)
Lemma derive_temporal_derivative_witness :
  exists R, returned (derive five_by_two (derivative_config 2)) = Ok (PyArray R)
            /\ dim2 R = 3%nat.
Proof.
  destruct (derive_temporal_derivative five_by_two (derivative_config 2)
              "temporalderivative" 2)
    as (R & r & _ & Hr & Hd & _).
  - reflexivity.
  - simpl. tauto.
  - reflexivity.
  - change (1 <= 5)%nat. lia.
  - change (0 <= 2 <= 5). lia.
  - left. reflexivity.
  - intros v Hv. vm_compute in Hv. discriminate Hv.
  - exists R. split; [exact Hr|]. change (Z.of_nat (dim2 R) = 5 - 2) in Hd. lia.
Defined.

(** A window of size 0 on three time points: four rows. *)
Lemma sliding_window_of_size_zero_witness :
  exists weights report' params',
    weightfun_sliding_window (F:=spec_float) 3 (window_config 0) ∅
    = Ok (weights, report', params')
    /\ shape0 weights = 4%nat /\ get2 weights 3 2 = f64 0.
Proof.
  destruct (sliding_window_of_size_zero (F:=spec_float) 3 (window_config 0) ∅)
    as (w & r & Heq & H0 & _ & Hz); [reflexivity|].
  eexists w, r, _. split; [exact Heq|]. split; [exact H0|apply Hz].
Defined.

(** A negative and a non-integer window size. *)
Lemma sliding_window_bad_size_witness :
  raises (returned (derive three_by_two (window_config (-1)))) "ValueError"
  /\ raises (returned (derive three_by_two named_window_config)) "TypeError".
Proof.
  split.
  - apply (sliding_window_bad_size three_by_two (window_config (-1))
             "slidingwindow" (PInt (-1))).
    + reflexivity.
    + simpl. tauto.
    + reflexivity.
    + intros k [= <-]. lia.
  - apply (sliding_window_bad_size three_by_two named_window_config
             "slidingwindow" (PStr "three")).
    + reflexivity.
    + simpl. tauto.
    + reflexivity.
    + intros k Hk. discriminate Hk.
Defined.

(** The caller's own 'taper' entry is replaced. *)
Lemma derive_sliding_window_writes_taper_witness :
  own_taper_config !! "taper" = Some (PStr "mine")
  /\ params_after (derive three_by_two own_taper_config) !! "taper"
     = Some (PStr "untapered/uniform").
Proof.
  split; [reflexivity|].
  destruct (derive_sliding_window_writes_taper three_by_two own_taper_config
              "slidingwindow" 2)
    as (w & _ & _ & Hp & _).
  - reflexivity.
  - simpl. tauto.
  - reflexivity.
  - change (0 <= 2 <= 3). lia.
  - left. reflexivity.
  - intros v Hv. vm_compute in Hv. discriminate Hv.
  - rewrite Hp. apply lookup_insert_eq.
Defined.

(** A uniform taper of three points on ten time points: eight rows. *)
Lemma tapered_window_rows_witness :
  exists weights report' params',
    weightfun_tapered_sliding_window (F:=spec_float) 10 tapered_config ∅
    = Ok (weights, report', params')
    /\ shape0 weights = 8%nat
    /\ is_Some (params' !! "taper_window").
Proof.
  destruct (tapered_window_rows (F:=spec_float) 10 3 tapered_config ∅
              uniform_params (PStr "uniform")
              (map1 (fun v => if fle (f64 (-1)) v && fle v (fadd (f64 (-1)) (f64 2))
                              then fdiv (of_Z 1) (f64 2) else of_Z 0)
                    (taper_window 3)))
    as (w & Heq & _ & H0 & _).
  - lia.
  - reflexivity.
  - reflexivity.
  - reflexivity.
  - reflexivity.
  - reflexivity.
  - reflexivity.
  - eexists w, _, _. split; [exact Heq|]. split; [exact H0|].
    rewrite lookup_insert_eq. by eexists.
Defined.

(** The temporal derivative of three time points with windows 3 and 4. *)
Lemma temporal_derivative_window_edges_witness :
  (exists R report', temporal_derivative three_by_two (derivative_config 3) ∅
                     = Ok (R, report') /\ dim2 R = 0%nat)
  /\ raises (temporal_derivative three_by_two (derivative_config 4) ∅) "ValueError".
Proof.
  split.
  - destruct (proj1 (temporal_derivative_window_edges three_by_two (derivative_config 3)
                       ∅ 3 eq_refl ltac:(simpl; lia)) eq_refl)
      as (R & r & Heq & _ & _ & Hd).
    exists R, r. split; [exact Heq|exact Hd].
  - apply (proj2 (temporal_derivative_window_edges three_by_two (derivative_config 4)
                    ∅ 4 eq_refl ltac:(simpl; lia))).
    right. simpl. lia.
Defined.

Lemma SFleb_not_nan (x y : spec_float) :
  SFleb x y = true -> Binary64.b64_isnan x = false /\ Binary64.b64_isnan y = false.
Proof. destruct x, y; simpl; try done. Qed.

(** The coupling of five time points in binary64 is symmetric. *)
Lemma temporal_derivative_symmetric_witness :
  exists R report',
    temporal_derivative five_by_two (derivative_config 2) ∅ = Ok (R, report')
    /\ get3 R 0 1 2 = get3 R 1 0 2.
Proof.
  assert (E : exists out, temporal_derivative five_by_two (derivative_config 2) ∅
                          = Ok out) by (eexists; reflexivity).
  destruct E as [[R r] E]. exists R, r. split; [exact E|].
  apply (temporal_derivative_symmetric five_by_two (derivative_config 2) ∅ r R);
    [|exact E].
  intros x y. apply SFmul_comm.
Defined.

(** The Euclidean distance weights of three time points are symmetric. *)
Lemma distance_weights_symmetric_witness :
  exists weights,
    weightfun_spatial_distance three_by_two euclidean_config ∅ = Ok (weights, ∅)
    /\ get2 weights 0 2 = get2 weights 2 0.
Proof.
  assert (E : exists weights, weightfun_spatial_distance three_by_two euclidean_config ∅
                              = Ok (weights, ∅)) by (eexists; reflexivity).
  destruct E as [w E]. exists w. split; [exact E|].
  apply (distance_weights_symmetric three_by_two euclidean_config ∅ ∅
           (PStr "euclidean") euclidean w); [reflexivity|reflexivity| |exact E| |];
    [|simpl; lia|simpl; lia].
  intros n t Hn Ht. simpl in Hn, Ht.
  destruct n as [|[|[|n]]]; [| | |lia];
    (destruct t as [|[|[|t]]]; [| | |lia]); vm_compute; reflexivity.
Defined.

(** No time point and a single time point. *)
Lemma distance_weights_small_inputs_witness :
  raises (weightfun_spatial_distance no_time_point euclidean_config ∅) "ValueError"
  /\ exists weights,
       weightfun_spatial_distance one_by_two euclidean_config ∅ = Ok (weights, ∅)
       /\ to_list2 weights = [[f64 1]].
Proof.
  destruct (distance_weights_small_inputs (F:=spec_float) no_time_point euclidean_config ∅
              (PStr "euclidean") euclidean) as [H0 _]; [reflexivity|reflexivity|].
  destruct (distance_weights_small_inputs (F:=spec_float) one_by_two euclidean_config ∅
              (PStr "euclidean") euclidean) as [_ H1]; [reflexivity|reflexivity|].
  split; [apply H0; reflexivity|apply H1; reflexivity].
Defined.

(** Row 4 has five entries. *)
Lemma pascal_row_shape_witness :
  length (pascal_row (F:=spec_float) 4) = 5%nat
  /\ rev (pascal_row (F:=spec_float) 4) = pascal_row 4.
Proof.
  destruct (pascal_row_shape (F:=spec_float) 4 ltac:(lia)) as (Hl & _ & Hr).
  split; [exact Hl|exact Hr].
Defined.

(** The middle of row 6 is 20. *)
Lemma pascal_row_exact_witness :
  nth 3 (map py_float (pascal_row (F:=Exact.xq) 6)) nan = of_Z 20.
Proof. apply (pascal_row_exact 6 3). lia. Defined.

(** The middle of row 54 in binary64. *)
Lemma pascal_row_binary64_witness :
  nth 27 (map py_float (pascal_row (F:=spec_float) 54)) nan
  = of_Z (choose_quotient 54 27).
Proof.
  change 54 with (Z.of_nat 54). rewrite choose_quotient_choose.
  apply (pascal_row_binary64 54 27); lia.
Defined.

(** The four entries above 0 of the two slices: three in the second slice,
    whose nodes are numbered 2 and 3, and one in the first. *)
Lemma edge_list_decodes_witness :
  edgeListFromMatrix two_slices (f64 0) = [(2, 3); (3, 2); (1, 1); (3, 3)]%nat
  /\ List.NoDup (edgeListFromMatrix two_slices (f64 0)).
Proof.
  split; [vm_compute; reflexivity|].
  apply (edge_list_decodes two_slices (f64 0)). reflexivity.
Defined.

(** The NaN entry (0, 1) of the second slice gives no edge. *)
Lemma edge_list_skips_nan_witness :
  ~ In (2, 3)%nat (edgeListFromMatrix two_slices_nan (f64 0)).
Proof.
  apply (edge_list_skips_nan two_slices_nan (f64 0) 0 1 1).
  - intros x y. apply SFleb_not_nan.
  - reflexivity.
  - simpl. lia.
  - simpl. lia.
  - reflexivity.
Defined.

(** Two setters after the constructor: the constructor's entry is gone. *)
Lemma history_example :
  history (set_pipeline_subdir (set_bids_suffix fresh_object "tvc") "tvc")
  = [("set_pipeline_subdir", {["pipeline_subdir" := ArgStr "tvc"]})].
Proof. vm_compute. reflexivity. Qed.
